(* ===== verification/_CoqProject ===== *)
-Q . S2P
Prelude.v
JsRuntime.v
Effects.v
Risk.v
Portfolio.v
Adequacy.v
ResultCard.v
Doubles.v
AuthTranslations.v
Validation.v
Store.v
AssetActions.v
ProfileActions.v
AuthActions.v
ClientForms.v
System.v
