(* ===== verification/Prelude.v ===== *)
(** * A verification of genial, the suitability advisor

    genial (leonardo-corbi/genial) is a Next.js application: a user
    registers assets (name, risk tier, invested amount) and an investor
    profile, and submits a purchase order that is checked for
    "suitability" against the profile and the current portfolio.  Its
    parts, from the core outwards:

    - the suitability core, src/lib/result-card.logic.ts: the risk scale
      ([riscoParaNumero], [perfilParaTexto]), the portfolio score
      [calcularRiscoCarteira] and the verdict [analisarAdequacao];
    - the result card, src/app/(private)/_components/result-card-client.tsx,
      which computes the current and projected scores, calls the core and
      chooses icons, colours and texts;
    - the zod schemas of src/lib/zodSchema.ts and of the profile actions,
      which validate every form;
    - the data layer of src/app/data/user (the session's user, the user's
      assets and profile) over the two database tables;
    - the server actions: assets (src/app/(private)/actions.ts), profile
      (src/app/(private)/profile/actions.ts) and authentication
      (src/server/users.ts), the last answering failures through the
      error translation of src/lib/auth-translations.ts.

    ** Files

    - [Prelude] (this file): notations in [genial_scope], the boolean
      comparisons on rationals and their reflection, the hint databases
      [genial] and [genial_rw], and the list and sum lemmas the
      components share.
    - [JsRuntime]: the JavaScript operations the code relies on, on UTF-8
      byte strings: [trim] with every ECMAScript white space,
      [toLowerCase], [includes], UTF-16 lengths, [Number(string)] as
      [jsNumber], and values with prototypes ([jsGet] follows the chain
      to [Object.prototype] and [Error.prototype]).
    - [Effects]: the state and exception monad of server actions, with
      [tryCatch] for [try/catch] and [preserves] for invariants.
    - [Risk]: the risk and profile scales ([Module Risk]).
    - [Portfolio]: [calcularRiscoCarteira] as its two left folds over
      exact rationals, the reading the card's model composes with the
      verdict.
    - [Doubles]: the same score, the share of the order and the risk
      impact in IEEE doubles (Rocq's primitive floats, evaluated by the
      kernel with JavaScript's rounding): what the program computes.
    - [Adequacy]: [analisarAdequacao] block by block; it refines a
      relational specification (the classification table [suitable])
      followed by the order-independent warnings.
    - [ResultCard]: the card's computations and the spec's scenarios.
    - [AuthTranslations]: the translation table as an object literal read
      through the prototype chain, [translateAuthError],
      [getTranslatedAuthError].
    - [Validation]: each schema as the list of issues zod reports, in
      zod's order; [safeParse] succeeds when it is empty.
    - [Store]: the world of an action (tables [user] and [ativo] as
      [gmap]s keyed by id, the session, the revalidated paths), each
      Prisma call the code makes, [requireUser] and the readers
      [getAtivos], [getPerfil], [getUserInfo].
    - [AssetActions], [ProfileActions], [AuthActions]: the server actions,
      each one a computation of [Effects.M] (the authentication actions
      are pure functions of the library's outcome).
    - [ClientForms]: the submit handlers of the forms that call the
      actions (profile editors, the asset list's delete button, login and
      sign-up): client-side schema, action, toasts, editor state and
      navigation.
    - [System]: the writing actions and the library's sign-ups and session
      changes as one step relation from the empty database, and the
      worlds it reaches.

    ** Theorems

    The suitability core: refinement of the classification table, the
    exact set of warnings in their order, the diversification note, the
    divisor [1] of the impact from a zero score, and, in doubles, the
    guards that give a zero-value portfolio the score [0] instead of
    [NaN].  The card: consistency of its texts and verdict with the core,
    and the spec's scenarios by evaluation.  Validation: exactly what each
    schema accepts, and zod's skipping of the sign-up refinement after an
    enum failure.  The actions: the store invariants (every asset valid
    and owned by a registered user; every e-mail held once) are
    preserved by every action and hold in every reachable world; no
    request changes another user's asset; each branch of each action,
    errors included; reads after writes ([getAtivos] after [createAtivo],
    [getPerfil] after [updatePerfilInvestidor]); the redirect of an
    unauthenticated profile request is caught.  The
    client: through the editors the server's validation error cannot
    occur, a signed-out user sees the generic error, and each handler's
    toasts and navigation follow the action's outcome.  The
    translation: exact lookup before the fallback, the string results,
    and the inputs that escape them through [Object.prototype].

    ** Modelling choices

    JavaScript numbers are IEEE doubles.  [Doubles] models the score and
    the card's numbers with Rocq's primitive floats, so its results are
    the program's to the last bit; what rounding breaks is shown there on
    concrete portfolios (a score above [2], a score that depends on the
    order of the holdings, the over-30% warning raised at a share of
    exactly 30%) and reported as findings.  The classifier and the card
    ([Adequacy], [ResultCard], [Portfolio]) read numbers as exact
    rationals [Q]: their theorems are about which branch is taken on a
    comparison and which texts follow, and none claims a bound, an order
    independence or a boundary that rounding could break.  [Number(s)]
    ([JsRuntime.jsNumber]) keeps [Infinity] and [NaN] apart, but its
    finite results are exact: the rounding of a literal, and the
    underflow of ["1e-400"] to [0], are not modelled.  The amount column
    is a decimal whose rendering ([Store.getAtivos]) is a parameter.
    Strings are the UTF-8 bytes of the source text.  The only loop over unbounded input with a non-structural
    measure is [trimStart], whose fuel is the string's length: each step
    removes at least one byte, so the fuel is enough.  What lies outside
    the sources is a parameter: zod's e-mail regular expression, whether
    the database accepts a row, the decimal rendering of an amount, the
    outcome of the better-auth calls; [System]'s sign-up step assumes the
    library's contract (a new id, an address nobody holds).
    Not modelled: the React markup, the Google social login, the better-auth
    configuration (src/lib/auth.ts), session cookies, React's [cache]
    around [requireUser] (it returns the same value within a request),
    and concurrent requests (each action runs to completion). *)

From stdpp Require Export base list gmap strings.
From Stdlib Require Export QArith Qabs Qminmax Lqa Permutation Ascii String.

(** ** Scope and notations of the development *)

Declare Scope genial_scope.
Delimit Scope genial_scope with genial.

(** Boolean comparisons on rationals, as the TypeScript code compares
    numbers with [<], [>] and [===]. *)
Definition Qltb (x y : Q) : bool := negb (Qle_bool y x).

Infix "<?Q" := Qltb (at level 70, no associativity) : genial_scope.
Infix "=?Q" := Qeq_bool (at level 70, no associativity) : genial_scope.

Open Scope genial_scope.

(** ** Reflection of the comparisons *)

Lemma Qltb_spec (x y : Q) : reflect (x < y) (x <?Q y).
Proof.
  unfold Qltb. destruct (Qle_bool y x) eqn:E; simpl; constructor.
  - apply Qle_bool_iff in E. lra.
  - apply Qnot_le_lt. intros H. apply Qle_bool_iff in H. congruence.
Qed.

Lemma Qeqb_spec (x y : Q) : reflect (x == y) (x =?Q y).
Proof.
  destruct (x =?Q y) eqn:E; constructor.
  - by apply Qeq_bool_iff.
  - intros H. apply Qeq_bool_iff in H. congruence.
Qed.

Lemma Qltb_true (x y : Q) : x < y -> (x <?Q y) = true.
Proof. intros H. by destruct (Qltb_spec x y). Qed.

Lemma Qltb_false (x y : Q) : y <= x -> (x <?Q y) = false.
Proof. intros H. destruct (Qltb_spec x y); [lra | done]. Qed.

Lemma Qltb_iff (x y : Q) : (x <?Q y) = true <-> x < y.
Proof. by destruct (Qltb_spec x y); split. Qed.

Lemma Qeqb_true (x y : Q) : x == y -> (x =?Q y) = true.
Proof. intros H. by destruct (Qeqb_spec x y). Qed.

Lemma Qeqb_false (x y : Q) : ~ x == y -> (x =?Q y) = false.
Proof. intros H. by destruct (Qeqb_spec x y). Qed.

(** The two branches of [Qabs], with the value it takes in each. *)
Lemma Qabs_cases (x : Q) : (0 <= x /\ Qabs x == x) \/ (x < 0 /\ Qabs x == - x).
Proof.
  destruct (Qlt_le_dec x 0) as [H|H]; [right | left]; split; auto.
  - apply Qabs_neg. lra.
  - by apply Qabs_pos.
Qed.

(** The boolean comparisons respect [Qeq], so they can be rewritten under. *)
#[export] Instance Qeqb_proper : Proper (Qeq ==> Qeq ==> eq) Qeq_bool.
Proof.
  intros x x' Hx y y' Hy.
  destruct (Qeqb_spec x y), (Qeqb_spec x' y'); auto; exfalso.
  - apply n. by rewrite <- Hx, <- Hy.
  - apply n. by rewrite Hx, Hy.
Qed.

#[export] Instance Qltb_proper : Proper (Qeq ==> Qeq ==> eq) Qltb.
Proof.
  intros x x' Hx y y' Hy.
  destruct (Qltb_spec x y), (Qltb_spec x' y'); auto; exfalso.
  - apply n. by rewrite <- Hx, <- Hy.
  - apply n. by rewrite Hx, Hy.
Qed.

(** [qcases] splits every rational comparison of the goal into its two
    cases, with the comparison as a hypothesis of each. *)
Ltac qcases :=
  repeat match goal with
  | |- context [?x <?Q ?y] => destruct (Qltb_spec x y)
  | |- context [?x =?Q ?y] => destruct (Qeqb_spec x y)
  end.

Create HintDb genial.
Create Rewrite HintDb genial_rw.
#[export] Hint Resolve Qltb_true Qltb_false Qeqb_true Qeqb_false : genial.

(** ** Optional elements of a list

    [opt_list b x] is [[x]] when [b] holds and [[]] otherwise: the shape
    of a conditional [push]. *)
Definition opt_list {A} (b : bool) (x : A) : list A := if b then [x] else [].

Lemma In_opt_list {A} (b : bool) (x w : A) : In w (opt_list b x) <-> x = w /\ b = true.
Proof. destruct b; simpl; intuition congruence. Qed.

Lemma sublist_opt_list {A} (b : bool) (x : A) : sublist (opt_list b x) [x].
Proof. destruct b; [done | apply sublist_nil_l]. Qed.

(** ** Sums of rationals over lists

    The code sums with [Array.prototype.reduce], a left fold from [0].
    [qsum] is the reference (right fold) sum the lemmas reason with. *)

Section Sums.
Context {A : Type}.

Definition qsum (f : A -> Q) (l : list A) : Q :=
  fold_right (fun a s => f a + s) 0 l.

Lemma fold_left_qsum (f : A -> Q) (l : list A) (z : Q) :
  fold_left (fun s a => s + f a) l z == z + qsum f l.
Proof.
  revert z. induction l as [|a l IH]; intros z; simpl; [lra|].
  rewrite IH. lra.
Qed.

End Sums.

#[export] Hint Rewrite @fold_left_qsum : genial_rw.

(** ** ASCII letters *)

(** The lower case of an ASCII upper-case letter; every other byte is
    kept.  [JsRuntime.toLowerCase] is built on it. *)
Definition ascii_lower (c : ascii) : ascii :=
  let n := Ascii.nat_of_ascii c in
  if (65 <=? n)%nat && (n <=? 90)%nat then Ascii.ascii_of_nat (n + 32) else c.
