(* ===== verification/JsRuntime.v ===== *)
(** * The JavaScript runtime the code relies on

    Not code of the repository: the ECMAScript operations the source
    calls, modelled once here so that every component reads them the
    same way.  Strings are Stdlib strings holding the UTF-8 bytes of the
    text.

    - [JsVal] is a JavaScript value; objects carry their prototype
      ([PlainObject] for literals, [ErrorObject] for [Error] instances)
      and their own properties.  [jsGet] follows the prototype chain,
      [jsIn] is the [in] operator, [typeof], [truthy] is [!!v].
    - [trim] removes the ECMAScript white space and line terminators
      (ASCII and the Unicode ones, as UTF-8 sequences) at both ends.
    - [toLowerCase] lowers ASCII letters and the two non-ASCII letters
      whose lower case contains ASCII: the Kelvin sign (to [k]) and the
      dotted capital I (to [i] and a combining dot).  Every other byte is
      kept.  For an [includes] test against an ASCII needle this agrees
      with the full Unicode mapping: every other letter lowers to
      non-ASCII bytes, which no ASCII needle matches.
    - [includes] is [String.prototype.includes]. *)

From S2P Require Import Prelude.

Local Open Scope nat_scope.

(** ** Byte strings *)

Definition bytes (l : list nat) : string :=
  fold_right (fun n s => String (Ascii.ascii_of_nat n) s) EmptyString l.

Fixpoint string_rev (s : string) : string :=
  match s with
  | EmptyString => EmptyString
  | String c s' => (string_rev s' ++ String c EmptyString)%string
  end.

(** ** [String.prototype.toLowerCase] *)

Fixpoint toLowerCase (s : string) : string :=
  match s with
  | EmptyString => EmptyString
  | String c s1 =>
    if Ascii.eqb c (Ascii.ascii_of_nat 226) then
      match s1 with
      | String c2 (String c3 s3) =>
        if Ascii.eqb c2 (Ascii.ascii_of_nat 132) && Ascii.eqb c3 (Ascii.ascii_of_nat 170)
        then String "k"%char (toLowerCase s3)
        else String c (toLowerCase s1)
      | _ => String c (toLowerCase s1)
      end
    else if Ascii.eqb c (Ascii.ascii_of_nat 196) then
      match s1 with
      | String c2 s2 =>
        if Ascii.eqb c2 (Ascii.ascii_of_nat 176)
        then (bytes [105; 204; 135] ++ toLowerCase s2)%string
        else String c (toLowerCase s1)
      | _ => String c (toLowerCase s1)
      end
    else String (ascii_lower c) (toLowerCase s1)
  end.

(** ** [String.prototype.includes] *)

Fixpoint includes (hay needle : string) : bool :=
  String.prefix needle hay ||
  match hay with
  | EmptyString => false
  | String _ hay' => includes hay' needle
  end.

(** ** [String.prototype.trim] *)

(** WhiteSpace and LineTerminator of ECMAScript, UTF-8 encoded: TAB, LF,
    VT, FF, CR, SPACE, NBSP, U+1680, U+2000 to U+200A, U+2028, U+2029,
    U+202F, U+205F, U+3000, U+FEFF. *)
Definition jsWhiteSpace : list string :=
  map bytes
    ([[9]; [10]; [11]; [12]; [13]; [32]; [194; 160]; [225; 154; 128]] ++
     map (fun n => [226; 128; n]) (seq 128 11) ++
     [[226; 128; 168]; [226; 128; 169]; [226; 128; 175]; [226; 129; 159];
      [227; 128; 128]; [239; 187; 191]]).

(** The rest of [s] after a leading element of [pats], if any. *)
Fixpoint stripOne (pats : list string) (s : string) : option string :=
  match pats with
  | [] => None
  | p :: ps =>
    if String.prefix p s then Some (String.substring (String.length p)
                                      (String.length s - String.length p) s)
    else stripOne ps s
  end.

(** Strip leading elements of [pats] while there are any; each step
    removes at least one byte, so [length s] steps suffice. *)
Fixpoint stripLeading (fuel : nat) (pats : list string) (s : string) : string :=
  match fuel with
  | O => s
  | S f => match stripOne pats s with Some s' => stripLeading f pats s' | None => s end
  end.

Definition trimStart (s : string) : string := stripLeading (String.length s) jsWhiteSpace s.

Definition trimEnd (s : string) : string :=
  string_rev (stripLeading (String.length s) (map string_rev jsWhiteSpace) (string_rev s)).

Definition trim (s : string) : string := trimEnd (trimStart s).

(** ** JavaScript values *)

Inductive Proto := PlainObject | ErrorObject.

#[local] Set Warnings "-register-all".
Inductive JsVal :=
| VUndefined
| VNull
| VBool (b : bool)
| VNum (q : Q)
| VStr (s : string)
| VFun (name : string)
| VObj (proto : Proto) (props : list (string * JsVal)).

(** The properties every object inherits from [Object.prototype]. *)
Definition objectPrototypeFunctions : list string :=
  ["constructor"; "hasOwnProperty"; "isPrototypeOf"; "propertyIsEnumerable";
   "toString"; "valueOf"; "toLocaleString"; "__defineGetter__";
   "__defineSetter__"; "__lookupGetter__"; "__lookupSetter__"].

(** The property names of [Object.prototype], [__proto__] included. *)
Definition prototypeKeys : list string := "__proto__" :: objectPrototypeFunctions.

(** A property read that reaches [Object.prototype]. *)
Definition objectProtoGet (key : string) : JsVal :=
  if decide (key = "__proto__") then VObj PlainObject []
  else if decide (key ∈ objectPrototypeFunctions) then VFun key
  else VUndefined.

(** A property read that reaches the prototype: [Error.prototype] has
    [message = ""] and [name = "Error"] before [Object.prototype]. *)
Definition protoGet (proto : Proto) (key : string) : JsVal :=
  match proto with
  | ErrorObject =>
    if decide (key = "message") then VStr ""
    else if decide (key = "name") then VStr "Error"
    else objectProtoGet key
  | PlainObject => objectProtoGet key
  end.

(** An own property: the last definition of the key wins, as in an
    object literal. *)
Definition ownGet {V} (props : list (string * V)) (key : string) : option V :=
  fold_left (fun acc kv => if decide (fst kv = key) then Some (snd kv) else acc) props None.

Definition jsGet (proto : Proto) (props : list (string * JsVal)) (key : string) : JsVal :=
  match ownGet props key with Some v => v | None => protoGet proto key end.

(** [key in obj]. *)
Definition jsIn (proto : Proto) (props : list (string * JsVal)) (key : string) : bool :=
  match jsGet proto props key with VUndefined => bool_decide (is_Some (ownGet props key)) | _ => true end.

Definition typeof (v : JsVal) : string :=
  match v with
  | VUndefined => "undefined"
  | VNull | VObj _ _ => "object"
  | VBool _ => "boolean"
  | VNum _ => "number"
  | VStr _ => "string"
  | VFun _ => "function"
  end.

(** [!!v]. *)
Definition truthy (v : JsVal) : bool :=
  match v with
  | VUndefined | VNull => false
  | VBool b => b
  | VNum q => negb (q =?Q 0)
  | VStr s => negb (String.eqb s "")
  | VFun _ | VObj _ _ => true
  end.

(** ** [string.length]

    The number of UTF-16 code units of the UTF-8 text: one per
    character, two for a character outside the Basic Multilingual Plane
    (a four-byte sequence).  Continuation bytes count for nothing. *)
Fixpoint utf16Length (s : string) : nat :=
  match s with
  | EmptyString => 0
  | String c s' =>
    let n := Ascii.nat_of_ascii c in
    (if (128 <=? n) && (n <? 192) then 0 else if 240 <=? n then 2 else 1) + utf16Length s'
  end.

(** ** [Number(string)]

    The StringToNumber conversion of ECMAScript on the trimmed text: the
    empty string is [0]; [Infinity] with an optional sign; [0x], [0o],
    [0b] integers; decimal literals with an optional sign, fraction and
    exponent; anything else is [NaN].  Finite results are kept as exact
    rationals: the rounding to a double (and the overflow of huge
    literals to [Infinity]) is not modelled. *)
Inductive JsNumber := JNaN | JPosInf | JNegInf | JFinite (q : Q).

Definition digitValue (radix : nat) (c : ascii) : option nat :=
  let n := Ascii.nat_of_ascii c in
  let d := if (48 <=? n) && (n <=? 57) then Some (n - 48)
           else if (97 <=? n) && (n <=? 102) then Some (n - 87)
           else if (65 <=? n) && (n <=? 70) then Some (n - 55)
           else None in
  match d with Some v => if v <? radix then Some v else None | None => None end.

(** The longest run of digits at the front: its value, its length and
    the rest of the text. *)
Fixpoint digitsAcc (radix : nat) (acc : Z) (k : nat) (s : string) : Z * nat * string :=
  match s with
  | String c s' =>
    match digitValue radix c with
    | Some v => digitsAcc radix (acc * Z.of_nat radix + Z.of_nat v)%Z (S k) s'
    | None => (acc, k, s)
    end
  | EmptyString => (acc, k, s)
  end.

Definition digits (radix : nat) (s : string) : Z * nat * string := digitsAcc radix 0%Z 0 s.

(** [0x], [0o], [0b] followed by one digit or more and nothing else. *)
Definition parseNonDecimal (s : string) : option Q :=
  match s with
  | String "0"%char (String x rest) =>
    let radix := if Ascii.eqb x "x"%char || Ascii.eqb x "X"%char then 16
                 else if Ascii.eqb x "o"%char || Ascii.eqb x "O"%char then 8
                 else if Ascii.eqb x "b"%char || Ascii.eqb x "B"%char then 2 else 0 in
    if radix =? 0 then None else
    match digits radix rest with
    | (v, S _, EmptyString) => Some (inject_Z v)
    | _ => None
    end
  | _ => None
  end.

(** An optional exponent part [e] or [E], optional sign, digits. *)
Definition parseExponent (s : string) : option Z :=
  match s with
  | EmptyString => Some 0%Z
  | String e rest =>
    if Ascii.eqb e "e"%char || Ascii.eqb e "E"%char then
      let '(sign, rest') :=
        match rest with
        | String "+"%char r => (1%Z, r)
        | String "-"%char r => ((-1)%Z, r)
        | _ => (1%Z, rest)
        end in
      match digits 10 rest' with
      | (v, S _, EmptyString) => Some (sign * v)%Z
      | _ => None
      end
    else None
  end.

(** An unsigned decimal literal: [d+], [d+.], [d+.d+], [.d+], each with an
    optional exponent. *)
Definition parseUnsignedDecimal (s : string) : option Q :=
  let '(ip, ni, r1) := digits 10 s in
  let '(fp, nf, r2) :=
    match r1 with
    | String "."%char r => digits 10 r
    | _ => (0%Z, 0, r1)
    end in
  let hasDot := match r1 with String "."%char _ => true | _ => false end in
  if (ni =? 0) && (nf =? 0) then None else
  match (if hasDot then parseExponent r2 else parseExponent r1) with
  | Some e =>
    Some ((inject_Z ip + inject_Z fp / inject_Z (10 ^ Z.of_nat nf)) * Qpower 10 e)%Q
  | None => None
  end.

Definition parseSignedDecimal (s : string) : JsNumber :=
  let '(neg, body) :=
    match s with
    | String "+"%char r => (false, r)
    | String "-"%char r => (true, r)
    | _ => (false, s)
    end in
  if String.eqb body "Infinity" then (if neg then JNegInf else JPosInf) else
  match parseUnsignedDecimal body with
  | Some q => JFinite (if neg then - q else q)%Q
  | None => JNaN
  end.

Definition jsNumber (s : string) : JsNumber :=
  let t := trim s in
  if String.eqb t "" then JFinite 0 else
  match parseNonDecimal t with
  | Some q => JFinite q
  | None => parseSignedDecimal t
  end.

(** [isNaN(Number(s))] and [Number(s) > 0]. *)
Definition jsIsNaN (n : JsNumber) : bool := match n with JNaN => true | _ => false end.

Definition jsPositive (n : JsNumber) : bool :=
  match n with JPosInf => true | JFinite q => 0 <?Q q | _ => false end.

(** ** Lemmas *)

Lemma objectProtoGet_other (key : string) :
  key ∉ prototypeKeys -> objectProtoGet key = VUndefined.
Proof.
  intros Hk. unfold objectProtoGet, prototypeKeys in *.
  rewrite elem_of_cons in Hk. repeat case_decide; tauto.
Qed.

(** Reading through a renamed copy of the values. *)
Lemma ownGet_map {V W} (f : V -> W) (props : list (string * V)) (key : string) :
  ownGet (map (fun kv => (fst kv, f (snd kv))) props) key = f <$> ownGet props key.
Proof.
  unfold ownGet. change (@None W) with (f <$> @None V).
  generalize (@None V). induction props as [|[k v] props IH]; intros acc; [done|].
  simpl. rewrite <- IH. by case_decide.
Qed.
