(* ===== verification/Effects.v ===== *)
(** * The effects of a server action

    A Next.js server action is an [async] function that reads and writes
    the database, may throw (the [redirect] of next/navigation throws a
    [NEXT_REDIRECT] error, [z.parse] throws a [ZodError], Prisma throws
    on a missing record) and may catch what it throws with [try/catch].
    [M S E A] is that shape: a state [S] threaded through, a result [A]
    or an exception [E], with the writes made before an exception kept
    (the database does not roll back).  [tryCatch] is [try { m } catch
    (e) { h(e) }].

    [preserves I m] says that [m] keeps the state invariant [I], whatever
    it returns or throws; its combinator lemmas let the actions' proofs
    follow the structure of the code. *)

From S2P Require Import Prelude.

Module Effects.

Definition M (S E A : Type) : Type := S -> (E + A) * S.

Section Monad.
Context {S E : Type}.

Definition ret {A} (a : A) : M S E A := fun s => (inr a, s).

Definition bind {A B} (m : M S E A) (k : A -> M S E B) : M S E B :=
  fun s => match m s with
           | (inr a, s') => k a s'
           | (inl e, s') => (inl e, s')
           end.

Definition throw {A} (e : E) : M S E A := fun s => (inl e, s).

Definition tryCatch {A} (m : M S E A) (h : E -> M S E A) : M S E A :=
  fun s => match m s with
           | (inl e, s') => h e s'
           | ok => ok
           end.

Definition gets {A} (f : S -> A) : M S E A := fun s => (inr (f s), s).

Definition modify (f : S -> S) : M S E unit := fun s => (inr tt, f s).

(** The state after running [m]. *)
Definition final {A} (m : M S E A) (s : S) : S := snd (m s).

(** ** Invariants *)

Definition preserves {A} (I : S -> Prop) (m : M S E A) : Prop :=
  forall s, I s -> I (final m s).

Lemma preserves_ret {A} (I : S -> Prop) (a : A) : preserves I (ret a).
Proof. by intros s Hs. Qed.

Lemma preserves_throw {A} (I : S -> Prop) (e : E) : preserves I (@throw A e).
Proof. by intros s Hs. Qed.

Lemma preserves_gets {A} (I : S -> Prop) (f : S -> A) : preserves I (gets f).
Proof. by intros s Hs. Qed.

Lemma preserves_modify (I : S -> Prop) (f : S -> S) :
  (forall s, I s -> I (f s)) -> preserves I (modify f).
Proof. intros Hf s Hs. by apply Hf. Qed.

Lemma preserves_bind {A B} (I : S -> Prop) (m : M S E A) (k : A -> M S E B) :
  preserves I m -> (forall a, preserves I (k a)) -> preserves I (bind m k).
Proof.
  intros Hm Hk s Hs. unfold final, bind. specialize (Hm s Hs). unfold final in Hm.
  destruct (m s) as [[e|a] s']; [done|]. by apply Hk.
Qed.

Lemma preserves_tryCatch {A} (I : S -> Prop) (m : M S E A) (h : E -> M S E A) :
  preserves I m -> (forall e, preserves I (h e)) -> preserves I (tryCatch m h).
Proof.
  intros Hm Hh s Hs. unfold final, tryCatch. specialize (Hm s Hs). unfold final in Hm.
  destruct (m s) as [[e|a] s']; [by apply Hh | done].
Qed.

(** ** Running *)

Lemma bind_inr {A B} (m : M S E A) (k : A -> M S E B) (s s' : S) (a : A) :
  m s = (inr a, s') -> bind m k s = k a s'.
Proof. intros H. unfold bind. by rewrite H. Qed.

Lemma bind_inl {A B} (m : M S E A) (k : A -> M S E B) (s s' : S) (e : E) :
  m s = (inl e, s') -> bind m k s = (inl e, s').
Proof. intros H. unfold bind. by rewrite H. Qed.

Lemma tryCatch_inl {A} (m : M S E A) (h : E -> M S E A) (s s' : S) (e : E) :
  m s = (inl e, s') -> tryCatch m h s = h e s'.
Proof. intros H. unfold tryCatch. by rewrite H. Qed.

Lemma tryCatch_inr {A} (m : M S E A) (h : E -> M S E A) (s s' : S) (a : A) :
  m s = (inr a, s') -> tryCatch m h s = (inr a, s').
Proof. intros H. unfold tryCatch. by rewrite H. Qed.

End Monad.

Declare Scope act_scope.
Delimit Scope act_scope with act.
Notation "x <- m ;; k" := (bind m (fun x => k))
  (at level 100, m at next level, right associativity) : act_scope.
Notation "m ;;; k" := (bind m (fun _ => k))
  (at level 100, right associativity) : act_scope.

#[export] Hint Resolve preserves_ret preserves_throw preserves_gets : genial.

End Effects.
