(* ===== verification/Risk.v ===== *)
(** * Risk tiers and investor profiles

    The 0-2 ordinal scale shared by assets and profiles: the type
    [RiscoNumerico] and the two label mappings of
    src/lib/result-card.logic.ts, the zod enums of src/lib/zodSchema.ts
    and the profile-to-ordinal mapping of src/app/data/user/get-perfil.ts.
    Labels are compared with [===], modelled by [decide (_ = _)] on
    strings. *)

From S2P Require Import Prelude.

Module Risk.

(** [export type RiscoNumerico = 0 | 1 | 2]: a literal union type,
    modelled by one constructor per literal. *)
Inductive RiscoNumerico := R0 | R1 | R2.

#[export] Instance RiscoNumerico_eq_dec : EqDecision RiscoNumerico.
Proof. solve_decision. Defined.

(** The number a [RiscoNumerico] stands for in arithmetic. *)
Definition riscoZ (r : RiscoNumerico) : Z :=
  match r with R0 => 0 | R1 => 1 | R2 => 2 end.

Definition riscoQ (r : RiscoNumerico) : Q := inject_Z (riscoZ r).

(** [riscoParaNumero]: ["Baixo"] is 0, ["Médio"] is 1, every other
    string is 2. *)
Definition riscoParaNumero (risco : string) : RiscoNumerico :=
  if decide (risco = "Baixo") then R0
  else if decide (risco = "Médio") then R1
  else R2.

(** [perfilParaTexto]: 0 is ["Conservador"], 1 is ["Moderado"], every
    other number is ["Arrojado"]. *)
Definition perfilParaTexto (perfil : Z) : string :=
  if decide (perfil = 0%Z) then "Conservador"
  else if decide (perfil = 1%Z) then "Moderado"
  else "Arrojado".

(** The zod enums [ativoRisco], [ordemRisco] and [perfilInvestidor]. *)
Definition ativoRisco : list string := ["Baixo"; "Médio"; "Alto"].
Definition ordemRisco : list string := ["Baixo"; "Médio"; "Alto"].
Definition perfilInvestidor : list string :=
  ["Conservador"; "Moderado"; "Arrojado"].

(** [getPerfil]'s conversion of the stored profile label into the
    ordinal handed to the analysis. *)
Definition perfilNumerico (perfilInvestidor : string) : Z :=
  if decide (perfilInvestidor = "Conservador") then 0%Z
  else if decide (perfilInvestidor = "Moderado") then 1%Z
  else 2%Z.

(** The label of a tier: its position in the [ativoRisco] enum. *)
Definition riscoLabel (r : RiscoNumerico) : string :=
  match r with R0 => "Baixo" | R1 => "Médio" | R2 => "Alto" end.

Lemma riscoZ_range (r : RiscoNumerico) : (0 <= riscoZ r <= 2)%Z.
Proof. destruct r; simpl; lia. Qed.

Lemma riscoQ_range (r : RiscoNumerico) : 0 <= riscoQ r <= 2.
Proof.
  unfold riscoQ. pose proof (riscoZ_range r) as [H0 H2]. split.
  - change 0 with (inject_Z 0). by rewrite <- Zle_Qle.
  - change 2 with (inject_Z 2). by rewrite <- Zle_Qle.
Qed.

Lemma riscoZ_inj (r1 r2 : RiscoNumerico) : riscoZ r1 = riscoZ r2 -> r1 = r2.
Proof. destruct r1, r2; simpl; congruence. Qed.

(** ** Properties of the mappings *)

(** C30. Round trip of the profile labels: [getPerfil]'s mapping undoes
    [perfilParaTexto] on the ordinals [0, 1, 2], and [perfilParaTexto]
    undoes [getPerfil]'s mapping on the labels of the zod enum. *)
Theorem perfil_roundtrip (p : Z) (s : string) :
  (0 <= p <= 2)%Z -> In s perfilInvestidor ->
  perfilNumerico (perfilParaTexto p) = p /\ perfilParaTexto (perfilNumerico s) = s.
Proof.
  intros Hp Hs. split.
  - assert (p = 0 \/ p = 1 \/ p = 2)%Z as [-> | [-> | ->]] by lia; reflexivity.
  - destruct Hs as [<- | [<- | [<- | []]]]; reflexivity.
Qed.

(** C31. [riscoParaNumero] reads ["Baixo"] as Low and ["Médio"] as
    Medium and every other string, a label outside the enum included, as
    High; on the enum labels it inverts [riscoLabel]. *)
Theorem riscoParaNumero_spec (s : string) (r : RiscoNumerico) :
  (riscoParaNumero s = R0 <-> s = "Baixo") /\
  (riscoParaNumero s = R1 <-> s = "Médio") /\
  (riscoParaNumero s = R2 <-> s <> "Baixo" /\ s <> "Médio") /\
  riscoParaNumero (riscoLabel r) = r.
Proof.
  unfold riscoParaNumero. split; [|split; [|split]].
  - case_decide; [tauto|]. case_decide; split; congruence.
  - case_decide; [subst; split; discriminate|]. case_decide; split; congruence.
  - repeat case_decide; intuition congruence.
  - by destruct r.
Qed.

Lemma perfil_roundtrip_witness :
  (0 <= 1 <= 2)%Z /\ In "Arrojado" perfilInvestidor /\
  perfilNumerico (perfilParaTexto 1) = 1%Z /\ perfilParaTexto (perfilNumerico "Arrojado") = "Arrojado".
Proof.
  assert (Hp : (0 <= 1 <= 2)%Z) by lia.
  assert (Hs : In "Arrojado" perfilInvestidor) by (simpl; auto).
  split; [exact Hp | split; [exact Hs | exact (perfil_roundtrip 1 "Arrojado" Hp Hs)]].
Defined.

End Risk.

#[export] Hint Resolve Risk.riscoZ_range Risk.riscoQ_range : genial.
