(* ===== verification/Portfolio.v ===== *)
(** * Portfolio risk aggregation, read in exact arithmetic

    [calcularRiscoCarteira] of src/lib/result-card.logic.ts with the
    amounts [Number(ativo.valorInvestido)] as exact rationals: the two
    [reduce] calls are left folds from [0], as in the code.  This is the
    reading the card's model ([ResultCard]) composes with the verdict,
    for the theorems about which branch of the verdict and which texts
    the card shows.  No theorem about the score's value is stated here:
    the program computes it in IEEE doubles, where the weighted mean can
    exceed [2] and depends on the order of the holdings; [Doubles] holds
    that reading and those facts. *)

From S2P Require Import Prelude Risk.
Import Risk.

Module Portfolio.

(** The fields of an asset that the aggregation reads. *)
Record Ativo := mkAtivo { risco : string; valorInvestido : Q }.

(** The weight of one holding in the fold. *)
Definition riscoPeso (valorTotal : Q) (ativo : Ativo) : Q :=
  riscoQ (riscoParaNumero (risco ativo)) * (valorInvestido ativo / valorTotal).

Definition calcularRiscoCarteira (ativos : list Ativo) : Q :=
  match ativos with
  | [] => 0
  | _ =>
    let valorTotal := fold_left (fun sum a => sum + valorInvestido a) ativos 0 in
    if valorTotal =?Q 0 then 0
    else fold_left (fun sum a => sum + riscoPeso valorTotal a) ativos 0
  end.

(** The total the card and the analysis compare with [0]. *)
Definition valorTotal (ativos : list Ativo) : Q := qsum valorInvestido ativos.

End Portfolio.
