(* ===== verification/Adequacy.v ===== *)
(** * The adequacy classifier

    [analisarAdequacao] of src/lib/result-card.logic.ts (lines 49-167):
    from the order's risk ordinal, the investor's profile ordinal, the
    current and projected portfolio risk scores, the order amount and
    the current portfolio value, it builds the verdict record
    [AnaliseAdequacao].  The function body is split into the blocks the
    code has, one definition each: the order-independent warnings
    (lines 58-76), the diversification note (78-90), the return and
    volatility tables (92-106), the risk impact (113-115) and the
    classification by ordinal distance (108-155), whose warning is
    [unshift]ed to the front of the list.

    The abstract specification [suitable] is the classification table
    of the spec; [analisarAdequacao_refines] shows the code implements
    it on every profile in [0, 2].  Numbers are exact rationals here;
    the theorems are about which branches are taken and in which order
    the texts come, and [Doubles] shows where the program's doubles
    differ at a boundary (a share of exactly 30%). *)

From S2P Require Import Prelude JsRuntime Risk.
Import Risk.

Module Adequacy.

(** The literal union types [StatusAdequacao] and [Recomendacao], one
    constructor per literal, and the literal each stands for. *)
Inductive StatusAdequacao := Adequado | ParcialmenteAdequado | Inadequado.
Inductive Recomendacao := CompraRecomendada | CompreComCautela | NaoRecomendado.

#[export] Instance StatusAdequacao_eq_dec : EqDecision StatusAdequacao.
Proof. solve_decision. Defined.
#[export] Instance Recomendacao_eq_dec : EqDecision Recomendacao.
Proof. solve_decision. Defined.

Definition statusTexto (s : StatusAdequacao) : string :=
  match s with
  | Adequado => "Adequado"
  | ParcialmenteAdequado => "Parcialmente adequado"
  | Inadequado => "Inadequado"
  end.

Definition recomendacaoTexto (r : Recomendacao) : string :=
  match r with
  | CompraRecomendada => "Compra recomendada"
  | CompreComCautela => "Compre com cautela"
  | NaoRecomendado => "Não recomendado para seu perfil"
  end.

(** [interface AnaliseAdequacao]. *)
Record AnaliseAdequacao := mkAnalise {
  status : StatusAdequacao;
  recomendacao : Recomendacao;
  explicacao : string;
  alertas : list string;
  impactoRisco : Q;
  impactoDiversificacao : string;
  rentabilidadePotencial : string;
  volatilidade : string
}.

(** ** The warning texts *)
Definition alertaAltaVolatilidade := "⚠️ Alta volatilidade esperada".
Definition alertaTrintaPorCento := "⚠️ Ordem representa mais de 30% da carteira".
Definition alertaValorBaixo :=
  "ℹ️ Valor baixo - custos operacionais podem impactar retorno".
Definition alertaMuitoAcimaConservador := "⚠️ Risco muito acima do seu perfil conservador".
Definition alertaAcimaPerfil := "⚠️ Risco acima do seu perfil - avalie cuidadosamente".
Definition alertaIncompativel := "🚫 Risco incompatível com seu perfil".
Definition alertaMuitoConservador := "ℹ️ Ativo muito conservador para seu perfil".

(** [alertas.push(x)]. *)
Definition push (alertas : list string) (x : string) : list string := alertas ++ [x].

(** [proporcaoNovo = valorOrdem / (valorCarteiraAtual + valorOrdem)]. *)
Definition proporcaoNovo (valorOrdem valorCarteiraAtual : Q) : Q :=
  valorOrdem / (valorCarteiraAtual + valorOrdem).

(** Lines 58-76: the four order-independent warnings, pushed in this
    order onto the empty list. *)
Definition alertasBase (riscoAtivo : RiscoNumerico) (perfilInvestidor : Z)
    (valorOrdem valorCarteiraAtual : Q) : list string :=
  let a0 : list string := [] in
  let a1 := if decide (riscoAtivo = R2) then push a0 alertaAltaVolatilidade else a0 in
  let a2 := if (3 # 10) <?Q proporcaoNovo valorOrdem valorCarteiraAtual
            then push a1 alertaTrintaPorCento else a1 in
  let a3 := if valorOrdem <?Q 100 then push a2 alertaValorBaixo else a2 in
  if bool_decide (riscoAtivo = R2) && bool_decide (perfilInvestidor = 0%Z)
  then push a3 alertaMuitoAcimaConservador else a3.

(** Lines 78-90: the diversification note. *)
Definition diversificacaoPrimeiro := "Será seu primeiro ativo na carteira".
Definition diversificacaoMantem := "Mantém o equilíbrio da carteira ✓".
Definition diversificacaoAumenta := "Aumenta o risco geral da carteira ↑".
Definition diversificacaoReduz := "Reduz o risco geral da carteira ↓".

Definition impactoDiversificacaoDe
    (riscoCarteiraAtual riscoCarteiraComNovo valorCarteiraAtual : Q) : string :=
  let variacaoRisco := Qabs (riscoCarteiraComNovo - riscoCarteiraAtual) in
  if valorCarteiraAtual =?Q 0 then diversificacaoPrimeiro
  else if variacaoRisco <?Q (3 # 10) then diversificacaoMantem
  else if riscoCarteiraAtual <?Q riscoCarteiraComNovo then diversificacaoAumenta
  else diversificacaoReduz.

(** Lines 93-106: the two lookup tables keyed by the order's risk. *)
Definition rentabilidadeMap (r : RiscoNumerico) : string :=
  match r with
  | R0 => "5-8% ao ano (mais estável)"
  | R1 => "8-15% ao ano (moderada)"
  | R2 => "15-30% ao ano (alta variação)"
  end.

Definition volatilidadeDe (riscoAtivo : RiscoNumerico) : string :=
  if decide (riscoAtivo = R0) then "Baixa - variações pequenas esperadas"
  else if decide (riscoAtivo = R1) then "Média - variações moderadas esperadas"
  else "Alta - grandes variações possíveis".

(** Lines 113-115: [(comNovo - atual) / (atual || 1) * 100]; [atual || 1]
    is [1] exactly when [atual] is [0]. *)
Definition impactoRiscoDe (riscoCarteiraAtual riscoCarteiraComNovo : Q) : Q :=
  ((riscoCarteiraComNovo - riscoCarteiraAtual)
     / (if riscoCarteiraAtual =?Q 0 then 1 else riscoCarteiraAtual)) * 100.

(** Lines 108-155: the classification by ordinal distance.  Its result
    is the status, the recommendation, the explanation and the warning
    the branch [unshift]s, if any. *)
Record Classificacao := mkClassificacao {
  cStatus : StatusAdequacao;
  cRecomendacao : Recomendacao;
  cExplicacao : string;
  cAlerta : option string
}.

Definition classificar (riscoAtivo : RiscoNumerico) (perfilInvestidor : Z) : Classificacao :=
  let diferencaRisco := Z.abs (riscoZ riscoAtivo - perfilInvestidor) in
  let perfil := toLowerCase (perfilParaTexto perfilInvestidor) in
  if decide (diferencaRisco = 0%Z) then
    mkClassificacao Adequado CompraRecomendada
      ("Este ativo está perfeitamente alinhado com seu perfil " ++ perfil ++
       ". O risco é adequado para seu objetivo de investimento.")%string None
  else if decide (diferencaRisco = 1%Z) then
    if decide (riscoZ riscoAtivo < perfilInvestidor)%Z then
      mkClassificacao Adequado CompraRecomendada
        ("Este ativo tem risco um pouco abaixo do seu perfil " ++ perfil ++
         ", o que pode ser interessante para equilibrar a carteira com opções mais conservadoras.")%string
        None
    else
      mkClassificacao ParcialmenteAdequado CompreComCautela
        ("Este ativo tem risco ligeiramente acima do seu perfil " ++ perfil ++
         ". Considere o valor investido e certifique-se de estar confortável com a volatilidade adicional.")%string
        (Some alertaAcimaPerfil)
  else if decide (perfilInvestidor < riscoZ riscoAtivo)%Z then
    mkClassificacao Inadequado NaoRecomendado
      ("Este ativo possui nível de risco muito superior ao seu perfil " ++ perfil ++
       ". A volatilidade pode causar perdas significativas e gerar desconforto emocional. Recomendamos buscar alternativas mais adequadas ao seu perfil.")%string
      (Some alertaIncompativel)
  else
    mkClassificacao Inadequado NaoRecomendado
      ("Este ativo é muito conservador para seu perfil " ++ perfil ++
       ". Você pode estar deixando de lado oportunidades de maior retorno compatíveis com sua tolerância a risco.")%string
      (Some alertaMuitoConservador).

(** [alertas.unshift(x)] when the branch has a warning. *)
Definition unshift (o : option string) (alertas : list string) : list string :=
  match o with Some x => x :: alertas | None => alertas end.

(** The whole function, composed as the code composes its blocks. *)
Definition analisarAdequacao (riscoAtivo : RiscoNumerico) (perfilInvestidor : Z)
    (riscoCarteiraAtual riscoCarteiraComNovo valorOrdem valorCarteiraAtual : Q)
    : AnaliseAdequacao :=
  let base := alertasBase riscoAtivo perfilInvestidor valorOrdem valorCarteiraAtual in
  let c := classificar riscoAtivo perfilInvestidor in
  {| status := cStatus c;
     recomendacao := cRecomendacao c;
     explicacao := cExplicacao c;
     alertas := unshift (cAlerta c) base;
     impactoRisco := impactoRiscoDe riscoCarteiraAtual riscoCarteiraComNovo;
     impactoDiversificacao :=
       impactoDiversificacaoDe riscoCarteiraAtual riscoCarteiraComNovo valorCarteiraAtual;
     rentabilidadePotencial := rentabilidadeMap riscoAtivo;
     volatilidade := volatilidadeDe riscoAtivo |}.

(** ** The abstract specification of the classification

    The table of the spec (section 4.3, step 4): the verdict, the
    recommendation and the warning put in front of the others, by the
    position of the profile [p] relative to the order's risk [r]. *)
Inductive suitable : RiscoNumerico -> Z -> StatusAdequacao -> Recomendacao ->
                     option string -> Prop :=
| suitable_match r :
    suitable r (riscoZ r) Adequado CompraRecomendada None
| suitable_below r p : p = (riscoZ r + 1)%Z ->
    suitable r p Adequado CompraRecomendada None
| suitable_above r p : p = (riscoZ r - 1)%Z ->
    suitable r p ParcialmenteAdequado CompreComCautela (Some alertaAcimaPerfil)
| suitable_far_above r p : p = (riscoZ r - 2)%Z ->
    suitable r p Inadequado NaoRecomendado (Some alertaIncompativel)
| suitable_far_below r p : p = (riscoZ r + 2)%Z ->
    suitable r p Inadequado NaoRecomendado (Some alertaMuitoConservador).

(** The specification is a function of [r] and [p]. *)
Lemma suitable_functional r p s1 s2 c1 c2 w1 w2 :
  suitable r p s1 c1 w1 -> suitable r p s2 c2 w2 -> s1 = s2 /\ c1 = c2 /\ w1 = w2.
Proof. intros H1 H2. inversion H1; inversion H2; subst; auto; lia. Qed.

(** The classification of every profile ordinal in [0, 2]. *)
Lemma classificar_suitable (r : RiscoNumerico) (p : Z) :
  (0 <= p <= 2)%Z ->
  suitable r p (cStatus (classificar r p)) (cRecomendacao (classificar r p))
    (cAlerta (classificar r p)).
Proof.
  intros Hp. assert (p = 0 \/ p = 1 \/ p = 2)%Z as Hc by lia.
  destruct r; destruct Hc as [ -> | [ -> | -> ] ]; cbn;
    first [ apply (suitable_match R0) | apply (suitable_match R1)
          | apply (suitable_match R2) | constructor; reflexivity ].
Qed.


(** The fixed order of the order-independent warnings. *)
Definition alertasOrdem : list string :=
  [alertaAltaVolatilidade; alertaTrintaPorCento; alertaValorBaixo;
   alertaMuitoAcimaConservador].

(** When each order-independent warning is due. *)
Definition alertaDevido (r : RiscoNumerico) (p : Z) (valorOrdem valorCarteiraAtual : Q)
    (w : string) : Prop :=
  (w = alertaAltaVolatilidade /\ r = R2) \/
  (w = alertaTrintaPorCento /\ 3 # 10 < proporcaoNovo valorOrdem valorCarteiraAtual) \/
  (w = alertaValorBaixo /\ valorOrdem < 100) \/
  (w = alertaMuitoAcimaConservador /\ r = R2 /\ p = 0%Z).

(** The four conditional [push]es as one concatenation. *)
Lemma alertasBase_opt (r : RiscoNumerico) (p : Z) (vo vc : Q) :
  alertasBase r p vo vc =
  opt_list (bool_decide (r = R2)) alertaAltaVolatilidade ++
  opt_list ((3 # 10) <?Q proporcaoNovo vo vc) alertaTrintaPorCento ++
  opt_list (vo <?Q 100) alertaValorBaixo ++
  opt_list (bool_decide (r = R2) && bool_decide (p = 0%Z)) alertaMuitoAcimaConservador.
Proof.
  unfold alertasBase, push, opt_list.
  destruct (decide (r = R2));
    [rewrite bool_decide_true by done | rewrite bool_decide_false by done];
    destruct (_ <?Q _), (_ <?Q _), (bool_decide (p = 0%Z)); reflexivity.
Qed.

(** ** Properties of the classifier *)

(** C1. Refinement: on every profile ordinal in [0, 2] the status, the
    recommendation and the warning put in front of the list are the
    ones of the specification's table, and the rest of the list is the
    order-independent warnings. *)
Theorem analisarAdequacao_refines (r : RiscoNumerico) (p : Z)
    (atual comNovo valorOrdem valorCarteiraAtual : Q) :
  (0 <= p <= 2)%Z ->
  let A := analisarAdequacao r p atual comNovo valorOrdem valorCarteiraAtual in
  exists w, suitable r p (status A) (recomendacao A) w /\
    alertas A = unshift w (alertasBase r p valorOrdem valorCarteiraAtual).
Proof.
  intros Hp A. exists (cAlerta (classificar r p)). split; [|done].
  by apply classificar_suitable.
Qed.

(** C2. The order-independent warnings are exactly the due ones, in
    the fixed order high volatility, over 30%, low value, far above a
    conservative profile. *)
Theorem alertasBase_correct (r : RiscoNumerico) (p : Z) (valorOrdem valorCarteiraAtual : Q) :
  sublist (alertasBase r p valorOrdem valorCarteiraAtual) alertasOrdem /\
  (forall w, In w (alertasBase r p valorOrdem valorCarteiraAtual) <->
             alertaDevido r p valorOrdem valorCarteiraAtual w).
Proof.
  rewrite alertasBase_opt. split.
  - change alertasOrdem with ([alertaAltaVolatilidade] ++ [alertaTrintaPorCento] ++
      [alertaValorBaixo] ++ [alertaMuitoAcimaConservador]).
    repeat apply sublist_app; apply sublist_opt_list.
  - intros w. unfold alertaDevido.
    rewrite !in_app_iff, !In_opt_list, andb_true_iff, !bool_decide_eq_true, !Qltb_iff.
    intuition (subst; auto).
Qed.

(** C13. The diversification note: the first holding when the current
    portfolio is worth [0]; otherwise balance kept when the risk score
    moves by less than [0.3], else an increase or a decrease as the
    projected score is above or below the current one. *)
Theorem impactoDiversificacao_spec (a n vc : Q) :
  let d := impactoDiversificacaoDe a n vc in
  (d = diversificacaoPrimeiro <-> vc == 0) /\
  (d = diversificacaoMantem <-> ~ vc == 0 /\ Qabs (n - a) < 3 # 10) /\
  (d = diversificacaoAumenta <-> ~ vc == 0 /\ 3 # 10 <= Qabs (n - a) /\ a < n) /\
  (d = diversificacaoReduz <-> ~ vc == 0 /\ 3 # 10 <= Qabs (n - a) /\ n < a).
Proof.
  unfold impactoDiversificacaoDe.
  destruct (Qabs_cases (n - a)) as [[Hs Ha]|[Hs Ha]]; qcases;
    intuition (try discriminate; try lra).
Qed.

(** C19. From a current score of exactly [0] the impact is the
    projected score times [100], not a division by zero. *)
Theorem impactoRisco_zero (a n : Q) :
  a == 0 -> impactoRiscoDe a n == n * 100.
Proof.
  intros Ha. unfold impactoRiscoDe. rewrite Qeqb_true by done.
  rewrite Ha. field.
Qed.

(** ** Witnesses *)

Lemma analisarAdequacao_refines_witness :
  (0 <= 1 <= 2)%Z /\
  exists w, suitable R2 1 (status (analisarAdequacao R2 1 0 1 500 0))
    (recomendacao (analisarAdequacao R2 1 0 1 500 0)) w /\
    alertas (analisarAdequacao R2 1 0 1 500 0) = unshift w (alertasBase R2 1 500 0).
Proof.
  assert (Hp : (0 <= 1 <= 2)%Z) by lia.
  split; [exact Hp | exact (analisarAdequacao_refines R2 1 0 1 500 0 Hp)].
Defined.

Lemma impactoRisco_zero_witness : 0 == 0 /\ impactoRiscoDe 0 (1 # 2) == (1 # 2) * 100.
Proof.
  assert (Ha : 0 == 0) by reflexivity.
  split; [exact Ha | exact (impactoRisco_zero 0 (1 # 2) Ha)].
Defined.

End Adequacy.
