(* ===== verification/ResultCard.v ===== *)
(** * The result card: the suitability pipeline end to end

    [ResultCardClient] of src/app/(private)/_components/result-card-client.tsx
    composes the core: it sums the current portfolio, scores it with
    [calcularRiscoCarteira] twice (without and with the order treated as
    a hypothetical holding, lines 45-49), calls [analisarAdequacao]
    (lines 51-58) and chooses the icons, colours and the impact text it
    renders (lines 60-79, 136-142, 159-176, 226).  The JSX markup is not
    modelled; the values it displays are.  [toFixed(1)] and
    [toLocaleString] are formatting and are kept as the number they
    format.  The amounts and scores are exact rationals; the impact icon
    as the doubles of the program decide it is [Doubles.cardImpactoIcon]. *)

From S2P Require Import Prelude Risk Portfolio Adequacy.
Import Risk Portfolio Adequacy.

Module ResultCard.

(** [OrdemSchemaType]: the validated order form.  The amount is the
    number [Number(ordem.valorOrdem)]. *)
Record Ordem := mkOrdem { ativo : string; risco : string; valorOrdem : Q }.

(** The lucide icons the card chooses between. *)
Inductive Icone := CheckCircle2 | AlertCircle | XCircle | TrendingUp | TrendingDown | Activity.

#[export] Instance Icone_eq_dec : EqDecision Icone.
Proof. solve_decision. Defined.

(** Lines 167-176: the impact sentence; the payload of [AumentaEm] and
    [ReduzEm] is the number printed with [toFixed(1)]. *)
Inductive ImpactoTexto :=
| PrimeiroAtivo
| AumentaEm (x : Q)
| ReduzEm (x : Q)
| ImpactoMinimo.

(** What the card displays. *)
Record Card := mkCard {
  analise : AnaliseAdequacao;
  valorCarteiraAtual : Q;
  riscoCarteiraAtual : Q;
  riscoCarteiraComNovo : Q;
  statusIcon : Icone;
  statusColor : string;
  recomendacaoColor : string;
  riscoColor : string;
  impactoIcon : Icone;
  impactoTexto : ImpactoTexto;
  mostraAlertas : bool
}.

(** Lines 40-43. *)
Definition valorCarteiraAtualDe (ativos : list Ativo) : Q :=
  fold_left (fun sum a => sum + valorInvestido a) ativos 0.

(** Lines 60-65. *)
Definition statusIconDe (s : StatusAdequacao) : Icone :=
  match s with
  | Adequado => CheckCircle2
  | ParcialmenteAdequado => AlertCircle
  | Inadequado => XCircle
  end.

(** Lines 67-72. *)
Definition statusColorDe (s : StatusAdequacao) : string :=
  match s with
  | Adequado => "text-green-600 dark:text-green-500"
  | ParcialmenteAdequado => "text-yellow-600 dark:text-yellow-500"
  | Inadequado => "text-red-600 dark:text-red-500"
  end.

(** Lines 74-79. *)
Definition recomendacaoColorDe (r : Recomendacao) : string :=
  match r with
  | CompraRecomendada =>
      "bg-green-100 dark:bg-green-950 text-green-800 dark:text-green-200 border-green-300 dark:border-green-800"
  | CompreComCautela =>
      "bg-yellow-100 dark:bg-yellow-950 text-yellow-800 dark:text-yellow-200 border-yellow-300 dark:border-yellow-800"
  | NaoRecomendado =>
      "bg-red-100 dark:bg-red-950 text-red-800 dark:text-red-200 border-red-300 dark:border-red-800"
  end.

(** Lines 136-142: the colour of the order's risk label. *)
Definition riscoColorDe (risco : string) : string :=
  if decide (risco = "Baixo") then "text-green-600 dark:text-green-500"
  else if decide (risco = "Médio") then "text-yellow-600 dark:text-yellow-500"
  else "text-red-600 dark:text-red-500".

(** Lines 159-165. *)
Definition impactoIconDe (impactoRisco : Q) : Icone :=
  if 0 <?Q impactoRisco then TrendingUp
  else if impactoRisco <?Q 0 then TrendingDown
  else Activity.

(** Lines 167-176. *)
Definition impactoTextoDe (valorCarteiraAtual impactoRisco : Q) : ImpactoTexto :=
  if valorCarteiraAtual =?Q 0 then PrimeiroAtivo
  else if 5 <?Q impactoRisco then AumentaEm impactoRisco
  else if impactoRisco <?Q -5 then ReduzEm (Qabs impactoRisco)
  else ImpactoMinimo.

(** The component: lines 37-58 compute the analysis, the rest chooses
    what to show. *)
Definition ResultCardClient (ordem : Ordem) (ativos : list Ativo) (perfil : Z) : Card :=
  let riscoAtivoNum := riscoParaNumero (risco ordem) in
  let valorOrdemNum := valorOrdem ordem in
  let valorCarteira := valorCarteiraAtualDe ativos in
  let riscoAtual := calcularRiscoCarteira ativos in
  let riscoComNovo :=
    calcularRiscoCarteira (ativos ++ [mkAtivo (risco ordem) (valorOrdem ordem)])%list in
  let an := analisarAdequacao riscoAtivoNum perfil riscoAtual riscoComNovo
              valorOrdemNum valorCarteira in
  {| analise := an;
     valorCarteiraAtual := valorCarteira;
     riscoCarteiraAtual := riscoAtual;
     riscoCarteiraComNovo := riscoComNovo;
     statusIcon := statusIconDe (status an);
     statusColor := statusColorDe (status an);
     recomendacaoColor := recomendacaoColorDe (recomendacao an);
     riscoColor := riscoColorDe (risco ordem);
     impactoIcon := impactoIconDe (impactoRisco an);
     impactoTexto := impactoTextoDe valorCarteira (impactoRisco an);
     mostraAlertas := negb (List.length (alertas an) =? 0)%nat |}.

(** ** Helper lemmas *)

Lemma valorCarteiraAtualDe_eq (ativos : list Ativo) :
  valorCarteiraAtualDe ativos == valorTotal ativos.
Proof. unfold valorCarteiraAtualDe. rewrite fold_left_qsum. unfold valorTotal. lra. Qed.

(** The classification's part of the card, for an order whose risk label
    maps to [r]. *)
Lemma analise_classificar (ordem : Ordem) (ativos : list Ativo) (perfil : Z) :
  let c := classificar (riscoParaNumero (risco ordem)) perfil in
  let an := analise (ResultCardClient ordem ativos perfil) in
  status an = cStatus c /\ recomendacao an = cRecomendacao c /\
  alertas an = unshift (cAlerta c)
    (alertasBase (riscoParaNumero (risco ordem)) perfil (valorOrdem ordem)
       (valorCarteiraAtualDe ativos)).
Proof. done. Qed.

(** ** Properties of the card *)

(** C20. The two places that announce a first holding agree: the impact
    text and the diversification note both say so exactly when the
    current portfolio's total value is [0] (an empty portfolio, or one
    whose amounts are all [0]). *)
Theorem primeiroAtivo_consistent (ordem : Ordem) (ativos : list Ativo) (perfil : Z) :
  let c := ResultCardClient ordem ativos perfil in
  (impactoTexto c = PrimeiroAtivo <-> valorTotal ativos == 0) /\
  (impactoDiversificacao (analise c) = diversificacaoPrimeiro <-> valorTotal ativos == 0).
Proof.
  cbn [ResultCardClient impactoTexto analise impactoDiversificacao analisarAdequacao].
  unfold impactoTextoDe, impactoDiversificacaoDe.
  rewrite !(Qeqb_proper _ _ (valorCarteiraAtualDe_eq ativos) 0 0) by done.
  qcases; intuition (try discriminate; try lra).
Qed.

(** C21. An order whose risk label maps to High, for a Conservative
    investor, is Inadequate and Not recommended whatever the portfolio,
    shown with the red cross; the incompatibility warning comes first
    and the high-volatility and far-above-conservative warnings follow. *)
Theorem alto_conservador (ordem : Ordem) (ativos : list Ativo) :
  riscoParaNumero (risco ordem) = R2 ->
  let c := ResultCardClient ordem ativos 0 in
  status (analise c) = Inadequado /\ recomendacao (analise c) = NaoRecomendado /\
  statusIcon c = XCircle /\
  head (alertas (analise c)) = Some alertaIncompativel /\
  In alertaAltaVolatilidade (alertas (analise c)) /\
  In alertaMuitoAcimaConservador (alertas (analise c)).
Proof.
  intros Hr c. destruct (analise_classificar ordem ativos 0) as (Hs & Hc & Ha).
  unfold c. cbn [statusIcon ResultCardClient]. rewrite Hs, Hc, Ha, Hr.
  assert (Hk : classificar R2 0 =
    mkClassificacao Inadequado NaoRecomendado (cExplicacao (classificar R2 0))
      (Some alertaIncompativel)) by reflexivity.
  rewrite Hk, alertasBase_opt, !bool_decide_true by done. cbn [unshift head cStatus
    cRecomendacao statusIconDe opt_list andb app].
  repeat split; simpl; rewrite ?in_app_iff; simpl; tauto.
Qed.

(** C22. When the order's risk ordinal equals the profile ordinal the
    card shows Adequate and Buy recommended with the check icon, and no
    classification warning is added to the order-independent ones. *)
Theorem alinhado_adequado (ordem : Ordem) (ativos : list Ativo) :
  let p := riscoZ (riscoParaNumero (risco ordem)) in
  let c := ResultCardClient ordem ativos p in
  status (analise c) = Adequado /\ recomendacao (analise c) = CompraRecomendada /\
  statusIcon c = CheckCircle2 /\
  alertas (analise c) =
    alertasBase (riscoParaNumero (risco ordem)) p (valorOrdem ordem) (valorTotal ativos).
Proof.
  intros p c. destruct (analise_classificar ordem ativos p) as (Hs & Hc & Ha).
  unfold c. cbn [statusIcon ResultCardClient]. rewrite Hs, Hc, Ha.
  unfold p. destruct (riscoParaNumero (risco ordem)); cbn;
    (split; [done | split; [done | split; [done|]]]);
    rewrite !alertasBase_opt; unfold proporcaoNovo;
    by rewrite (Qltb_proper _ _ (Qeq_refl _) _ _
      (Qdiv_comp _ _ (Qeq_refl _) _ _ (Qplus_comp _ _ (valorCarteiraAtualDe_eq ativos) _ _ (Qeq_refl _)))).
Qed.

(** ** The scenarios of the spec, evaluated *)

(** Scenario A: a Moderate investor with an empty portfolio orders
    5000 of a Medium-risk asset: Adequate, Buy recommended, "first
    holding" in both places, and the only warning is the over-30% one
    (the order is the whole portfolio). *)
Example cenario_A :
  let c := ResultCardClient (mkOrdem "PETR4" "Médio" 5000) [] 1 in
  status (analise c) = Adequado /\ recomendacao (analise c) = CompraRecomendada /\
  impactoDiversificacao (analise c) = diversificacaoPrimeiro /\
  impactoTexto c = PrimeiroAtivo /\
  alertas (analise c) = [alertaTrintaPorCento].
Proof. vm_compute. repeat split. Qed.

(** Scenario C: an Aggressive investor holding 10000 orders 50 of
    a Low-risk asset: Inadequate (too conservative), Not recommended;
    the warnings are the too-conservative one first, then the low-value
    one, and no high-volatility warning. *)
Example cenario_C :
  let c := ResultCardClient (mkOrdem "Tesouro" "Baixo" 50) [mkAtivo "Alto" 10000] 2 in
  status (analise c) = Inadequado /\ recomendacao (analise c) = NaoRecomendado /\
  alertas (analise c) = [alertaMuitoConservador; alertaValorBaixo].
Proof. vm_compute. repeat split. Qed.

(** Scenario D: from a portfolio of score exactly [0] (one Low
    holding of 1000), a Medium order of 1000 projects the score [0.5];
    the impact is computed with divisor [1], [50], and shown as a rise. *)
Example cenario_D :
  let c := ResultCardClient (mkOrdem "Fundo" "Médio" 1000) [mkAtivo "Baixo" 1000] 1 in
  riscoCarteiraAtual c == 0 /\ riscoCarteiraComNovo c == 1 # 2 /\
  impactoRisco (analise c) == 50 /\ impactoIcon c = TrendingUp.
Proof. vm_compute. repeat split; congruence. Qed.

(** ** Witnesses *)

Lemma alto_conservador_witness :
  riscoParaNumero "Alto" = R2 /\
  status (analise (ResultCardClient (mkOrdem "BTC" "Alto" 200) [] 0)) = Inadequado.
Proof.
  assert (Hr : riscoParaNumero (risco (mkOrdem "BTC" "Alto" 200)) = R2) by reflexivity.
  split; [exact Hr|].
  exact (proj1 (alto_conservador (mkOrdem "BTC" "Alto" 200) [] Hr)).
Defined.

End ResultCard.
