(* ===== verification/Doubles.v ===== *)
(** * The portfolio score and the card's numbers in IEEE doubles

    The numeric code of src/lib/result-card.logic.ts ([calcularRiscoCarteira],
    lines 30-47; [proporcaoNovo], line 59; [impactoRisco], lines 113-115)
    and of the card (src/app/(private)/_components/result-card-client.tsx,
    lines 40-50 and 159-165) as JavaScript evaluates it: every number is
    an IEEE 754 binary64 value, here Rocq's primitive [float], whose
    operations the kernel evaluates with the same rounding.  An amount is
    the double [Number(ativo.valorInvestido)] yields.

    What holds in this reading is proved: the guards of
    [calcularRiscoCarteira] make a portfolio whose amounts are all zero
    score [0] where the unguarded division would give [NaN].  What the
    exact reading of [Portfolio] would suggest but the program does not
    do is shown on concrete portfolios: the score exceeds [2], depends on
    the order of the holdings, a share of exactly 30% raises the
    over-30% warning, and an order of the portfolio's own tier shows a
    rising impact. *)

From Stdlib Require Import PrimFloat.
From S2P Require Import Prelude Risk Adequacy ResultCard.
Import Risk Adequacy ResultCard.

Module Doubles.

#[local] Set Warnings "-inexact-float".
Local Open Scope float_scope.

(** A holding as the code reads it: the label and [Number(valorInvestido)]. *)
Record AtivoD := mkAtivoD { riscoD : string; valorD : float }.

(** [riscoParaNumero]'s result as a JavaScript number. *)
Definition riscoF (r : RiscoNumerico) : float :=
  match r with R0 => 0 | R1 => 1 | R2 => 2 end.

(** Lines 30-47. *)
Definition calcularRiscoCarteira (ativos : list AtivoD) : float :=
  match ativos with
  | [] => 0
  | _ =>
    let valorTotal := fold_left (fun sum a => sum + valorD a) ativos 0 in
    if valorTotal =? 0 then 0
    else fold_left (fun sum a =>
                      let peso := valorD a / valorTotal in
                      sum + riscoF (riscoParaNumero (riscoD a)) * peso) ativos 0
  end.

(** result-card-client.tsx, lines 40-43. *)
Definition valorCarteiraAtual (ativos : list AtivoD) : float :=
  fold_left (fun sum a => sum + valorD a) ativos 0.

(** Line 59 and the test of line 66. *)
Definition proporcaoNovo (valorOrdem valorCarteiraAtual : float) : float :=
  valorOrdem / (valorCarteiraAtual + valorOrdem).

Definition alertaTrinta (valorOrdem valorCarteiraAtual : float) : bool :=
  0.3 <? proporcaoNovo valorOrdem valorCarteiraAtual.

(** [x || 1]: [0], [-0] and [NaN] are falsy. *)
Definition orOne (x : float) : float :=
  if negb (x =? 0) && (x =? x) then x else 1.

(** Lines 113-115. *)
Definition impactoRisco (riscoCarteiraAtual riscoCarteiraComNovo : float) : float :=
  ((riscoCarteiraComNovo - riscoCarteiraAtual) / orOne riscoCarteiraAtual) * 100.

(** result-card-client.tsx, lines 159-165. *)
Definition impactoIcon (impacto : float) : Icone :=
  if 0 <? impacto then TrendingUp
  else if impacto <? 0 then TrendingDown
  else Activity.

(** The icon the card shows for an order, lines 45-58 and 159-165. *)
Definition cardImpactoIcon (risco : string) (valorOrdem : float) (ativos : list AtivoD) : Icone :=
  let atual := calcularRiscoCarteira ativos in
  let comNovo := calcularRiscoCarteira (ativos ++ [mkAtivoD risco valorOrdem]) in
  impactoIcon (impactoRisco atual comNovo).

(** ** Helper lemmas *)

Definition zeroAmount (a : AtivoD) : Prop := valorD a = 0 \/ valorD a = -0.

(** Adding signed zeros to [+0] stays [+0]. *)
Lemma sum_zeros (ativos : list AtivoD) :
  Forall zeroAmount ativos -> fold_left (fun sum a => sum + valorD a) ativos 0 = 0.
Proof.
  induction 1 as [|a l [Ha | Ha] _ IH]; simpl; [reflexivity | |];
    rewrite Ha; exact IH.
Qed.

(** ** Properties *)

(** C12. The guards of [calcularRiscoCarteira], in doubles: an empty
    portfolio, and any portfolio whose amounts are all [0] or [-0],
    scores exactly [0], where dividing by the zero total would give
    [NaN]. *)
Theorem calcularRiscoCarteira_zero_total (ativos : list AtivoD) :
  Forall zeroAmount ativos -> calcularRiscoCarteira ativos = 0.
Proof.
  intros Hz. unfold calcularRiscoCarteira. destruct ativos as [|a l]; [reflexivity|].
  cbv zeta. rewrite (sum_zeros _ Hz). reflexivity.
Qed.

(** ** What the exact reading does not show *)

(** Four High holdings score above [2]. *)
Example score_above_two :
  (2 <? calcularRiscoCarteira
          [mkAtivoD "Alto" 5684.31; mkAtivoD "Alto" 2364.62;
           mkAtivoD "Alto" 630.81; mkAtivoD "Alto" 1112.63]) = true.
Proof. vm_compute. reflexivity. Qed.

(** The same three holdings in two orders score differently. *)
Example score_order_dependent :
  (calcularRiscoCarteira [mkAtivoD "Alto" 8474.34; mkAtivoD "Baixo" 2550.7; mkAtivoD "Médio" 7609.63]
   =? calcularRiscoCarteira [mkAtivoD "Médio" 7609.63; mkAtivoD "Baixo" 2550.7; mkAtivoD "Alto" 8474.34])
  = false.
Proof. vm_compute. reflexivity. Qed.

(** An order of 1.23 against a portfolio of 2.87 is exactly 30% of the
    result in exact arithmetic, yet the double share exceeds [0.3] and
    the warning is raised. *)
Example trinta_boundary :
  (Adequacy.proporcaoNovo (123 # 100) (287 # 100) == 3 # 10)%Q /\ alertaTrinta 1.23 2.87 = true.
Proof. split; [vm_compute; reflexivity | reflexivity]. Qed.

(** A High order added to a High portfolio leaves the exact score at
    [2], yet the card shows the rising icon. *)
Example icon_rises_at_equal_tier :
  cardImpactoIcon "Alto" 580 [mkAtivoD "Alto" 3656.9] = TrendingUp.
Proof. vm_compute. reflexivity. Qed.

(** ** Witnesses *)

Lemma calcularRiscoCarteira_zero_total_witness :
  calcularRiscoCarteira [mkAtivoD "Alto" 0; mkAtivoD "Baixo" (-0)] = 0.
Proof.
  apply calcularRiscoCarteira_zero_total.
  constructor; [left; reflexivity | constructor; [right; reflexivity | constructor]].
Defined.

End Doubles.
