(* ===== verification/AuthTranslations.v ===== *)
(** * Translation of authentication errors

    src/lib/auth-translations.ts: the table [authErrorTranslations]
    (lines 6-92) from the English messages of better-auth to Portuguese,
    [translateAuthError] (lines 99-167: empty check, [trim], exact
    lookup in the table, keyword fallback on the lower-cased message,
    else the trimmed message) and [getTranslatedAuthError] (lines
    175-220: the shapes of error value it accepts).

    The table is a JavaScript object literal, so [authErrorTranslations[k]]
    is a property read that follows the prototype chain: for a key such
    as ["toString"] it yields a function of [Object.prototype], not a
    string, and [translateAuthError] returns it.  The model keeps the
    results as [JsVal]s to show this. *)

From S2P Require Import Prelude JsRuntime.

Module AuthTranslations.

(** Lines 6-92, in the order of the literal. *)
Definition authErrorTranslations : list (string * string) := [
   ("Invalid credentials", "Credenciais inválidas");
   ("Invalid email or password", "Email ou senha inválidos");
   ("Email or password is incorrect", "Email ou senha incorretos");
   ("Invalid email", "Email inválido");
   ("Invalid password", "Senha inválida");
   ("User not found", "Usuário não encontrado");
   ("User already exists", "Usuário já existe");
   ("User already exists. Use another email.", "Usuário já existe. Use outro email.");
   ("Email already exists", "Este email já está em uso");
   ("Account not found", "Conta não encontrada");
   ("Account already exists", "Conta já existe");
   ("Password is required", "Senha é obrigatória");
   ("Password must be at least 8 characters", "Senha deve ter pelo menos 8 caracteres");
   ("Password too weak", "Senha muito fraca");
   ("Passwords do not match", "Senhas não coincidem");
   ("Invalid password format", "Formato de senha inválido");
   ("Email is required", "Email é obrigatório");
   ("Invalid email format", "Formato de email inválido");
   ("Email already in use", "Email já está em uso");
   ("Email verification required", "Verificação de email obrigatória");
   ("Unauthorized", "Não autorizado");
   ("Access denied", "Acesso negado");
   ("Session expired", "Sessão expirada");
   ("Invalid session", "Sessão inválida");
   ("Authentication failed", "Falha na autenticação");
   ("Token expired", "Token expirado");
   ("Invalid token", "Token inválido");
   ("OAuth authentication failed", "Falha na autenticação OAuth");
   ("Google authentication failed", "Falha na autenticação com Google");
   ("OAuth provider error", "Erro no provedor OAuth");
   ("Social login failed", "Falha no login social");
   ("Network error", "Erro de rede");
   ("Connection failed", "Falha na conexão");
   ("Server error", "Erro do servidor");
   ("Internal server error", "Erro interno do servidor");
   ("Service unavailable", "Serviço indisponível");
   ("Validation failed", "Falha na validação");
   ("Invalid input", "Entrada inválida");
   ("Required field missing", "Campo obrigatório ausente");
   ("Invalid format", "Formato inválido");
   ("Too many requests", "Muitas tentativas");
   ("Rate limit exceeded", "Limite de tentativas excedido");
   ("Too many login attempts", "Muitas tentativas de login");
   ("Something went wrong", "Algo deu errado");
   ("An error occurred", "Ocorreu um erro");
   ("Unknown error", "Erro desconhecido");
   ("Operation failed", "Operação falhou");
   ("Request failed", "Requisição falhou");
   ("User creation failed", "Falha ao criar usuário");
   ("Login failed", "Falha no login");
   ("Registration failed", "Falha no registro");
   ("Account creation failed", "Falha ao criar conta");
   ("Sign up failed", "Falha no cadastro");
   ("Sign in failed", "Falha no login");
   ("Logout failed", "Falha no logout");
   ("Login successful", "Login realizado com sucesso");
   ("Registration successful", "Registro realizado com sucesso");
   ("Account created successfully", "Conta criada com sucesso");
   ("Sign up successful", "Cadastro realizado com sucesso");
   ("Sign in successful", "Login realizado com sucesso")
].

(** The table as an object: a plain object whose own properties are
    the entries. *)
Definition translationsObject : list (string * JsVal) :=
  map (fun kv => (fst kv, VStr (snd kv))) authErrorTranslations.

(** Lines 110-166: the keyword fallback on the lower-cased message, in
    the order of the code, else the trimmed message itself. *)
Definition translateFallback (lowerMessage normalizedMessage : string) : JsVal :=
  if includes lowerMessage "invalid credentials" then VStr "Credenciais inválidas"
  else if includes lowerMessage "user not found" then VStr "Usuário não encontrado"
  else if includes lowerMessage "email already exists" || includes lowerMessage "email already in use" then VStr "Este email já está em uso"
  else if includes lowerMessage "password" && includes lowerMessage "required" then VStr "Senha é obrigatória"
  else if includes lowerMessage "email" && includes lowerMessage "required" then VStr "Email é obrigatório"
  else if includes lowerMessage "invalid email" then VStr "Email inválido"
  else if includes lowerMessage "invalid password" then VStr "Senha inválida"
  else if includes lowerMessage "authentication failed" then VStr "Falha na autenticação"
  else if includes lowerMessage "network error" then VStr "Erro de rede"
  else if includes lowerMessage "server error" then VStr "Erro do servidor"
  else if includes lowerMessage "unauthorized" then VStr "Não autorizado"
  else if includes lowerMessage "session expired" then VStr "Sessão expirada"
  else if includes lowerMessage "google" && includes lowerMessage "failed" then VStr "Falha na autenticação com Google"
  else if includes lowerMessage "oauth" && includes lowerMessage "failed" then VStr "Falha na autenticação OAuth"
  else if includes lowerMessage "too many requests" then VStr "Muitas tentativas"
  else if includes lowerMessage "validation failed" then VStr "Falha na validação"
  else VStr normalizedMessage.

(** Lines 99-167. *)
Definition translateAuthError (errorMessage : string) : JsVal :=
  if decide (errorMessage = "") then VStr "Erro desconhecido" else
  let normalizedMessage := trim errorMessage in
  let hit := jsGet PlainObject translationsObject normalizedMessage in
  if truthy hit then hit else
  translateFallback (toLowerCase normalizedMessage) normalizedMessage.

(** [typeof v === "object" && v !== null]: the object's prototype and
    own properties. *)
Definition asObject (v : JsVal) : option (Proto * list (string * JsVal)) :=
  match v with VObj proto props => Some (proto, props) | _ => None end.

(** [typeof o.key === "string"] after [key in o]: the string, if so. *)
Definition stringProp (v : JsVal) (key : string) : option string :=
  match asObject v with
  | Some (proto, props) =>
    if jsIn proto props key then
      match jsGet proto props key with VStr s => Some s | _ => None end
    else None
  | None => None
  end.

(** Lines 175-220. *)
Definition getTranslatedAuthError (error : JsVal) (defaultMessage : string) : JsVal :=
  if negb (truthy error) then VStr defaultMessage else
  match error with
  | VStr s => translateAuthError s
  | _ =>
    match stringProp error "message" with
    | Some m => translateAuthError m
    | None =>
      let inner := match asObject error with
                   | Some (proto, props) =>
                     if jsIn proto props "error" then jsGet proto props "error" else VUndefined
                   | None => VUndefined
                   end in
      match stringProp inner "message" with
      | Some m => translateAuthError m
      | None =>
        match inner with
        | VStr s => translateAuthError s
        | _ => VStr defaultMessage
        end
      end
    end
  end.

(** ** Helper lemmas *)

Lemma translateFallback_str (l n : string) : exists t, translateFallback l n = VStr t.
Proof.
  unfold translateFallback.
  repeat match goal with |- context [if ?b then _ else _] => destruct b end; eauto.
Qed.

Lemma jsGet_translations (k : string) :
  jsGet PlainObject translationsObject k =
  match ownGet authErrorTranslations k with
  | Some v => VStr v
  | None => objectProtoGet k
  end.
Proof. unfold jsGet, translationsObject. rewrite ownGet_map. by destruct (ownGet _ _). Qed.

Lemma ownGet_In {V} (props : list (string * V)) (k : string) (v : V) :
  ownGet props k = Some v -> In (k, v) props.
Proof.
  unfold ownGet. cut (forall acc, fold_left (fun acc kv => if decide (fst kv = k) then Some (snd kv)
    else acc) props acc = Some v -> acc = Some v \/ In (k, v) props).
  { intros H Hg. destruct (H None Hg) as [[=]|]; done. }
  induction props as [|[k' v'] l IH]; intros acc Hf; simpl in *; [by left|].
  destruct (IH _ Hf) as [Hacc | Hin]; [|by right; right].
  case_decide; [subst; injection Hacc as ->; by right; left | by left].
Qed.

(** Every translation in the table is a non-empty string, so truthy. *)
Lemma translations_truthy (k t : string) :
  In (k, t) authErrorTranslations -> truthy (VStr t) = true.
Proof.
  intros Hin.
  assert (H : forallb (fun kv => truthy (VStr (snd kv))) authErrorTranslations = true)
    by (vm_compute; reflexivity).
  exact (proj1 (forallb_forall _ _) H (k, t) Hin).
Qed.

(** Whether a value is a string. *)
Definition isStr (v : JsVal) : bool := match v with VStr _ => true | _ => false end.

(** No key of the table names a property of [Object.prototype], and each
    of those properties is a truthy value that is not a string. *)
Lemma prototypeKeys_escape (k : string) :
  k ∈ prototypeKeys ->
  ownGet authErrorTranslations k = None /\ truthy (objectProtoGet k) = true /\
  isStr (objectProtoGet k) = false.
Proof.
  intros Hk. apply list_elem_of_In in Hk.
  assert (H : forallb (fun k => bool_decide (ownGet authErrorTranslations k = None) &&
                                truthy (objectProtoGet k) && negb (isStr (objectProtoGet k)))
                prototypeKeys = true) by (vm_compute; reflexivity).
  apply (proj1 (forallb_forall _ _) H) in Hk.
  apply andb_true_iff in Hk as [Hk Hs]. apply andb_true_iff in Hk as [Hk Ht].
  apply bool_decide_eq_true in Hk. apply negb_true_iff in Hs. auto.
Qed.

(** ** Properties of the translation *)

(** C23. Exact lookup comes first: a non-empty message whose trimmed
    text is a key of the table (the last entry of a repeated key, as in
    an object literal) is translated to that entry's text, whatever white
    space surrounds it and whatever keywords it contains. *)
Theorem translateAuthError_lookup (s t : string) :
  s <> ""%string -> ownGet authErrorTranslations (trim s) = Some t ->
  translateAuthError s = VStr t.
Proof.
  intros Hs Ht. unfold translateAuthError. case_decide; [done|]. cbv zeta.
  rewrite jsGet_translations, Ht, (translations_truthy (trim s) t) by (by apply ownGet_In).
  reflexivity.
Qed.

(** C24. The result is a string, a translation, a fallback message or
    the trimmed message itself, whenever the trimmed message is not the
    name of a property of [Object.prototype]. *)
Theorem translateAuthError_string (s : string) :
  trim s ∉ prototypeKeys -> exists t, translateAuthError s = VStr t.
Proof.
  intros Hk. unfold translateAuthError. case_decide; [eauto|]. cbv zeta.
  rewrite jsGet_translations.
  destruct (ownGet authErrorTranslations (trim s)) as [v|].
  - destruct (truthy (VStr v)); [eauto | apply translateFallback_str].
  - rewrite objectProtoGet_other by done. apply translateFallback_str.
Qed.

(** C25. A non-empty message whose trimmed text is a property name of
    [Object.prototype] is not translated to a string: the lookup
    [authErrorTranslations[k]] returns the inherited function (or, for
    [__proto__], the prototype object), which is truthy, and
    [translateAuthError] returns it. *)
Theorem translateAuthError_prototype (s : string) :
  s <> ""%string -> trim s ∈ prototypeKeys ->
  translateAuthError s = objectProtoGet (trim s) /\ forall t, translateAuthError s <> VStr t.
Proof.
  intros Hs Hk. destruct (prototypeKeys_escape _ Hk) as (Hn & Ht & Hstr).
  assert (Heq : translateAuthError s = objectProtoGet (trim s)).
  { unfold translateAuthError. case_decide; [done|]. cbv zeta.
    by rewrite jsGet_translations, Hn, Ht. }
  split; [exact Heq|]. intros t. rewrite Heq. intros He. by rewrite He in Hstr.
Qed.

(** C26. A non-empty message made only of white space passes the
    emptiness guard, which runs before [trim], and comes back as the
    empty string instead of ["Erro desconhecido"]. *)
Theorem translateAuthError_blank (s : string) :
  s <> ""%string -> trim s = ""%string -> translateAuthError s = VStr "".
Proof.
  intros Hs Ht. unfold translateAuthError. case_decide; [done|]. cbv zeta.
  rewrite Ht. reflexivity.
Qed.

(** C27. The error shapes [getTranslatedAuthError] accepts: falsy
    values give the default; a string is translated; an object with a
    string [message] has it translated; a better-auth [{ error: {
    message } }] has the inner message translated.  An [Error] without
    its own message inherits [message = ""] from [Error.prototype], so it
    gives ["Erro desconhecido"], not the caller's default. *)
Theorem getTranslatedAuthError_shapes (d m s : string) :
  getTranslatedAuthError VNull d = VStr d /\
  getTranslatedAuthError VUndefined d = VStr d /\
  getTranslatedAuthError (VStr s) d =
    (if decide (s = "") then VStr d else translateAuthError s) /\
  getTranslatedAuthError (VObj ErrorObject [("message", VStr m)]) d = translateAuthError m /\
  getTranslatedAuthError (VObj PlainObject [("error", VObj PlainObject [("message", VStr m)])]) d
    = translateAuthError m /\
  getTranslatedAuthError (VObj ErrorObject []) d = VStr "Erro desconhecido".
Proof.
  repeat split; try reflexivity.
  unfold getTranslatedAuthError, truthy.
  destruct (String.eqb_spec s ""), (decide (s = "")); simpl; congruence.
Qed.

(** ** Witnesses *)

Lemma translateAuthError_string_witness :
  (trim " Invalid email " ∉ prototypeKeys) /\
  (exists t, translateAuthError " Invalid email " = VStr t).
Proof.
  assert (Hk : trim " Invalid email " ∉ prototypeKeys) by (apply (bool_decide_unpack (trim " Invalid email " ∉ prototypeKeys)); vm_compute; reflexivity).
  split; [exact Hk | exact (translateAuthError_string _ Hk)].
Defined.

Lemma translateAuthError_blank_witness :
  "   "%string <> ""%string /\ trim "   " = ""%string /\ translateAuthError "   " = VStr "".
Proof.
  assert (Hs : "   "%string <> ""%string) by discriminate.
  assert (Ht : trim "   " = ""%string) by reflexivity.
  split; [exact Hs | split; [exact Ht | exact (translateAuthError_blank _ Hs Ht)]].
Defined.

Lemma translateAuthError_lookup_witness :
  translateAuthError "  Invalid email  " = VStr "Email inválido".
Proof.
  apply translateAuthError_lookup; [discriminate | vm_compute; reflexivity].
Defined.

Lemma translateAuthError_prototype_witness :
  translateAuthError " constructor " = VFun "constructor".
Proof.
  refine (proj1 (translateAuthError_prototype " constructor " _ _)); [discriminate|].
  apply (bool_decide_unpack (trim " constructor " ∈ prototypeKeys)). vm_compute. reflexivity.
Defined.

End AuthTranslations.
