(* ===== verification/Validation.v ===== *)
(** * Form validation: the zod schemas

    The object schemas of src/lib/zodSchema.ts ([loginSchema],
    [signupSchema], [ativoSchema], [ordemSchema]) and of
    src/app/(private)/profile/actions.ts ([updateNameSchema],
    [updateEmailSchema], [updatePerfilSchema]) as functions from the
    submitted strings to the list of issues zod reports, each a path and
    a message, in the order zod produces them: the keys in the order of
    the shape, for each key every failing check in the order of the
    chain, then the object refinement.  [safeParse] succeeds exactly when
    the list is empty; [parse] throws a [ZodError] whose [issues[0]] the
    profile actions show.

    String lengths ([min], [max]) are in UTF-16 code units
    ([JsRuntime.utf16Length]); the refinement on amounts calls
    [JsRuntime.jsNumber].  The e-mail check is zod's own regular
    expression, a library routine: it is the parameter [isEmail] of the
    section, and every theorem holds for any such check. *)

From S2P Require Import Prelude JsRuntime Risk.
Import Risk.

Module Validation.

(** An issue: the path of the field and the message. *)
Definition Issue : Type := string * string.

(** A check of a [z.string()] chain: the message when it fails. *)
Definition Check : Type := string -> option string.

(** [.min(n, { message })] and [.max(n, { message })]. *)
Definition zMin (n : nat) (message : string) : Check :=
  fun s => if (utf16Length s <? n)%nat then Some message else None.

Definition zMax (n : nat) (message : string) : Check :=
  fun s => if (n <? utf16Length s)%nat then Some message else None.

(** [z.enum(values, { message })]. *)
Definition zEnum (values : list string) (message : string) : Check :=
  fun s => if decide (s ∈ values) then None else Some message.

(** [.refine(f, { message })] on a string. *)
Definition zRefine (f : string -> bool) (message : string) : Check :=
  fun s => if f s then None else Some message.

(** The issues of one field: every failing check, in order. *)
Definition field (path : string) (checks : list Check) (s : string) : list Issue :=
  omap (fun c => (fun m => (path, m)) <$> c s) checks.

(** [safeParse(...).success]. *)
Definition success (issues : list Issue) : bool := bool_decide (issues = []).

(** [!isNaN(Number(val)) && Number(val) > 0]. *)
Definition numeroPositivo (val : string) : bool :=
  negb (jsIsNaN (jsNumber val)) && jsPositive (jsNumber val).

Section Schemas.

(** zod's e-mail check. *)
Variable isEmail : string -> bool.

Definition zEmail (message : string) : Check :=
  fun s => if isEmail s then None else Some message.

(** [loginSchema]. *)
Definition loginSchema (email password : string) : list Issue :=
  field "email" [zEmail "E-mail inválido"] email ++
  field "password" [zMin 8 "A senha deve ter pelo menos 8 caracteres"] password.

(** [signupSchema], with its refinement on [confirmPassword].  zod runs
    an object's refinement only when no field failed with an issue that
    aborts: a failed string check ([min], [email]) lets it run, a value
    outside the enum does not.  The form's initial [perfilInvestidor] is
    [undefined], which the enum rejects with the same message as a string
    outside it. *)
Definition signupSchema (name email perfil password confirmPassword : string) : list Issue :=
  field "name" [zMin 2 "O nome deve ter pelo menos 2 caracteres"] name ++
  field "email" [zEmail "E-mail inválido"] email ++
  field "perfilInvestidor" [zEnum perfilInvestidor "Selecione um perfil de investidor"] perfil ++
  field "password" [zMin 8 "A senha deve ter pelo menos 8 caracteres"] password ++
  field "confirmPassword" [] confirmPassword ++
  (if decide (perfil ∈ perfilInvestidor) then
     if decide (password = confirmPassword) then []
     else [("confirmPassword", "As senhas não coincidem")]
   else []).

(** [updateEmailSchema]. *)
Definition updateEmailSchema (email : string) : list Issue :=
  field "email" [zEmail "E-mail inválido"] email.

End Schemas.

(** [ativoSchema]. *)
Definition ativoSchema (ativo risco valorInvestido : string) : list Issue :=
  field "ativo" [zMin 2 "O nome do ativo deve ter pelo menos 2 caracteres";
                 zMax 50 "O nome do ativo deve ter no máximo 50 caracteres"] ativo ++
  field "risco" [zEnum ativoRisco "Selecione um nível de risco"] risco ++
  field "valorInvestido" [zMin 1 "Informe o valor investido";
                          zRefine numeroPositivo "O valor deve ser um número positivo"]
    valorInvestido.

(** [ordemSchema]. *)
Definition ordemSchema (ativo risco valorOrdem : string) : list Issue :=
  field "ativo" [zMin 2 "O nome do ativo deve ter pelo menos 2 caracteres";
                 zMax 50 "O nome do ativo deve ter no máximo 50 caracteres"] ativo ++
  field "risco" [zEnum ordemRisco "Selecione um nível de risco"] risco ++
  field "valorOrdem" [zMin 1 "Informe o valor da ordem";
                      zRefine numeroPositivo "O valor deve ser um número positivo"] valorOrdem.

(** [updateNameSchema] of the profile actions. *)
Definition updateNameSchema (name : string) : list Issue :=
  field "name" [zMin 2 "O nome deve ter pelo menos 2 caracteres";
                zMax 100 "O nome deve ter no máximo 100 caracteres"] name.

(** [updatePerfilSchema] of the profile actions. *)
Definition updatePerfilSchema (perfil : string) : list Issue :=
  field "perfilInvestidor"
    [zEnum ["Conservador"; "Moderado"; "Arrojado"] "Selecione um perfil válido"] perfil.

(** ** Helper lemmas *)

Lemma field_nil (path : string) (checks : list Check) (s : string) :
  field path checks s = [] <-> Forall (fun c => c s = None) checks.
Proof.
  unfold field. induction checks as [|c cs IH]; simpl; [split; constructor|].
  rewrite Forall_cons. destruct (c s); simpl; [split; [discriminate|intros [[=] _]]|].
  rewrite IH. tauto.
Qed.

Lemma field_path (path p m : string) (checks : list Check) (s : string) :
  In (p, m) (field path checks s) -> p = path.
Proof.
  unfold field. intros H. apply list_elem_of_In, list_elem_of_omap in H as (c & _ & Hc).
  destruct (c s); simpl in Hc; congruence.
Qed.

Lemma success_app (l1 l2 : list Issue) :
  success (l1 ++ l2) = true <-> success l1 = true /\ success l2 = true.
Proof.
  unfold success. rewrite !bool_decide_eq_true.
  split; [apply app_eq_nil | by intros [-> ->]].
Qed.

Lemma success_field (path : string) (checks : list Check) (s : string) :
  success (field path checks s) = true <-> Forall (fun c => c s = None) checks.
Proof. unfold success. rewrite bool_decide_eq_true. apply field_nil. Qed.

Lemma zMin_none (n : nat) (m s : string) : zMin n m s = None <-> (n <= utf16Length s)%nat.
Proof. unfold zMin. destruct (Nat.ltb_spec (utf16Length s) n); split; congruence || lia. Qed.

Lemma zMax_none (n : nat) (m s : string) : zMax n m s = None <-> (utf16Length s <= n)%nat.
Proof. unfold zMax. destruct (Nat.ltb_spec n (utf16Length s)); split; congruence || lia. Qed.

Lemma zEnum_none (vs : list string) (m s : string) : zEnum vs m s = None <-> s ∈ vs.
Proof. unfold zEnum. case_decide; split; congruence || tauto. Qed.

Lemma zRefine_none (f : string -> bool) (m s : string) : zRefine f m s = None <-> f s = true.
Proof. unfold zRefine. destruct (f s); split; congruence. Qed.

Create Rewrite HintDb zod.
#[local] Hint Rewrite success_app success_field zMin_none zMax_none zEnum_none zRefine_none
  @Forall_cons @Forall_nil : zod.

(** ** Properties of the schemas *)

(** C7. [ativoSchema.safeParse] succeeds exactly when the name has 2
    to 50 UTF-16 code units, the risk is one of the three labels of the
    enum, and the amount is a non-empty string that [Number] reads as a
    number above [0]. *)
Theorem ativoSchema_success (ativo risco valor : string) :
  success (ativoSchema ativo risco valor) = true <->
  (2 <= utf16Length ativo <= 50)%nat /\ risco ∈ ativoRisco /\
  (1 <= utf16Length valor)%nat /\ numeroPositivo valor = true.
Proof. unfold ativoSchema. autorewrite with zod. tauto. Qed.

(** C18. What a validated asset or order carries: its risk label reads
    back to the tier it names (never to High by default), and its amount
    is a positive number or [Infinity]. *)
Theorem ordemSchema_valid (ativo risco valor : string) :
  success (ordemSchema ativo risco valor) = true ->
  riscoLabel (riscoParaNumero risco) = risco /\
  ((exists q, jsNumber valor = JFinite q /\ 0 < q) \/ jsNumber valor = JPosInf).
Proof.
  unfold ordemSchema. autorewrite with zod. intros (_ & (Hr & _) & (_ & Hv & _)).
  split.
  - unfold ordemRisco in Hr. rewrite !elem_of_cons, elem_of_nil in Hr.
    destruct Hr as [-> | [-> | [-> | []]]]; reflexivity.
  - unfold numeroPositivo in Hv. destruct (jsNumber valor); simpl in Hv; try discriminate.
    + by right.
    + left. exists q. split; [done|]. by apply Qltb_iff.
Qed.

(** The order form accepts amounts that are not decimal numbers:
    [Infinity] and hexadecimal literals pass [!isNaN(Number(val)) &&
    Number(val) > 0]. *)
Example ordemSchema_infinity :
  success (ordemSchema "BTC" "Alto" "Infinity") = true /\
  success (ordemSchema "BTC" "Alto" "0x10") = true /\
  success (ordemSchema "BTC" "Alto" "abc") = false.
Proof. vm_compute. repeat split. Qed.

(** C29. The sign-up refinement: the issue "As senhas não coincidem"
    on [confirmPassword] is raised exactly when the profile is one of the
    enum's and the two passwords differ (with a profile outside the enum
    zod skips the refinement); and whenever the passwords differ the form
    is rejected, by that issue or by the profile's. *)
Theorem signupSchema_passwords (isEmail : string -> bool) (n e p pw cpw : string) :
  (In ("confirmPassword", "As senhas não coincidem") (signupSchema isEmail n e p pw cpw) <->
   p ∈ perfilInvestidor /\ pw <> cpw) /\
  (pw <> cpw -> success (signupSchema isEmail n e p pw cpw) = false).
Proof.
  unfold signupSchema. split.
  - rewrite !in_app_iff. split.
    + intros [Hf | [Hf | [Hf | [Hf | [[] | Hr]]]]];
        try (apply field_path in Hf; discriminate).
      repeat case_decide; simpl in Hr; intuition congruence.
    + intros [Hp Hne]. right; right; right; right; right.
      destruct (decide (p ∈ _)); [|contradiction].
      destruct (decide (pw = cpw)); [contradiction|]. by left.
  - intros Hne. unfold success. apply bool_decide_eq_false. intros Hnil.
    apply app_eq_nil in Hnil as [_ Hnil]. apply app_eq_nil in Hnil as [_ Hnil].
    apply app_eq_nil in Hnil as [Hp Hnil].
    repeat apply app_eq_nil in Hnil as [_ Hnil].
    case_decide as Hin; [case_decide; [contradiction | discriminate]|].
    apply field_nil in Hp. inversion Hp as [|c cs Hc]; subst.
    by apply zEnum_none in Hc.
Qed.

(** ** Witnesses *)

Lemma ordemSchema_valid_witness :
  success (ordemSchema "PETR4" "Médio" "5000") = true /\
  riscoLabel (riscoParaNumero "Médio") = "Médio".
Proof.
  assert (H : success (ordemSchema "PETR4" "Médio" "5000") = true) by (vm_compute; reflexivity).
  split; [exact H | exact (proj1 (ordemSchema_valid _ _ _ H))].
Defined.

(** The form's initial profile is outside the enum: different passwords
    then raise no mismatch issue, the profile's issue rejects the form. *)
Lemma signupSchema_passwords_witness :
  ~ In ("confirmPassword", "As senhas não coincidem")
      (signupSchema (fun _ => true) "Ana" "ana@exemplo.com" "" "segredo123" "segredo321") /\
  success (signupSchema (fun _ => true) "Ana" "ana@exemplo.com" "" "segredo123" "segredo321") = false.
Proof.
  split.
  - intros H. apply (proj1 (signupSchema_passwords (fun _ => true) "Ana" "ana@exemplo.com" ""
                              "segredo123" "segredo321")) in H as [Hp _].
    revert Hp. apply (bool_decide_unpack (~ "" ∈ perfilInvestidor)). vm_compute. reflexivity.
  - apply (proj2 (signupSchema_passwords (fun _ => true) "Ana" "ana@exemplo.com" ""
                    "segredo123" "segredo321")). discriminate.
Defined.

End Validation.
