(* ===== verification/Store.v ===== *)
(** * The database, the session and the data-access layer

    The world a server action runs in: the two tables the code reads and
    writes through Prisma ([user], [ativo]), keyed by their ids, the user
    the request's session cookie resolves to, and the paths whose cache
    was invalidated with [revalidatePath].  Each Prisma call the code
    makes is one operation here, with the behaviour Prisma gives it
    (a new row gets a fresh id; [delete] and [update] of a missing row
    throw).  The database schema is not part of the sources; the only
    constraint modelled is the primary key.

    [requireUser] is src/app/data/user/require-user.ts: the session's
    user, or the [NEXT_REDIRECT] exception of [redirect("/login")].
    [getAtivos], [getPerfil] and [getUserInfo] are the three readers of
    src/app/data/user/. *)

From S2P Require Import Prelude Effects Risk.
Import Effects Risk.

Module Store.

(** A row of [user], with the columns the code selects. *)
Record User := mkUser {
  userName : string;
  userEmail : string;
  userPerfil : string;
  userCreatedAt : Z
}.

(** A row of [ativo], with the amount as the string the action wrote
    (see [getAtivos] for how it is read back). *)
Record AtivoRow := mkAtivoRow {
  nome : string;
  risco : string;
  valorInvestido : string;
  userId : string
}.

Record World := mkWorld {
  users : gmap string User;
  ativos : gmap string AtivoRow;
  session : option string;
  revalidated : list string
}.

(** What an action may throw. *)
Inductive Exc :=
| Redirect (url : string)
| ZodError (issues : list (string * string))
| DbError (msg : string)
| Thrown (msg : string).

Abbreviation Act := (M World Exc).

Definition setUsers (f : gmap string User -> gmap string User) (w : World) : World :=
  mkWorld (f (users w)) (ativos w) (session w) (revalidated w).

Definition setAtivos (f : gmap string AtivoRow -> gmap string AtivoRow) (w : World) : World :=
  mkWorld (users w) (f (ativos w)) (session w) (revalidated w).

(** ** Prisma *)

Section Prisma.

(** Whether the database takes the row (the conversion of the amount
    string to the decimal column, a constraint of the database server):
    a parameter, the code catches the error either way. *)
Variable dbAccepts : AtivoRow -> bool.

(** [prisma.ativo.create({ data })]: a fresh id. *)
Definition ativoCreate (data : AtivoRow) : Act string :=
  fun w =>
    if dbAccepts data then
      let id := fresh (dom (ativos w)) in (inr id, setAtivos (insert id data) w)
    else (inl (DbError "ativo.create"), w).

End Prisma.

(** [prisma.ativo.findUnique({ where: { id } })]. *)
Definition ativoFindUnique (id : string) : Act (option AtivoRow) :=
  gets (fun w => ativos w !! id).

(** [prisma.ativo.delete({ where: { id } })]. *)
Definition ativoDelete (id : string) : Act unit :=
  fun w =>
    match ativos w !! id with
    | Some _ => (inr tt, setAtivos (delete id) w)
    | None => (inl (DbError "ativo.delete: record not found"), w)
    end.

(** [prisma.user.findUnique({ where: { id } })]. *)
Definition userFindUnique (id : string) : Act (option User) :=
  gets (fun w => users w !! id).

(** [prisma.user.findUnique({ where: { email } })]: the user holding
    the e-mail, with its id. *)
Definition userFindByEmail (email : string) : Act (option (string * User)) :=
  gets (fun w => head (map_to_list (filter (fun iu => userEmail iu.2 = email) (users w)))).

(** [prisma.user.update({ where: { id }, data })]. *)
Definition userUpdate (id : string) (f : User -> User) : Act unit :=
  fun w =>
    match users w !! id with
    | Some u => (inr tt, setUsers (insert id (f u)) w)
    | None => (inl (DbError "user.update: record not found"), w)
    end.

(** [revalidatePath(path)]. *)
Definition revalidatePath (path : string) : Act unit :=
  modify (fun w => mkWorld (users w) (ativos w) (session w) (path :: revalidated w)).

(** ** The session *)

(** [requireUser]: the id and row of the session's user, or
    [redirect("/login")], which throws. *)
Definition requireUser : Act (string * User) :=
  fun w =>
    match session w with
    | Some id =>
      match users w !! id with
      | Some u => (inr (id, u), w)
      | None => (inl (Redirect "/login"), w)
      end
    | None => (inl (Redirect "/login"), w)
    end.

(** ** The readers of src/app/data/user *)

(** The row [getAtivos] returns: [valorInvestido] as a string. *)
Record AtivoView := mkAtivoView {
  viewId : string;
  viewNome : string;
  viewRisco : string;
  viewValorInvestido : string
}.

Local Open Scope act_scope.

Section Readers.

(** The amount column is a decimal: the database converts the written
    string to a decimal value and Prisma reads it back as a [Decimal],
    which [valorInvestido.toString()] renders ("1500.50" comes back as
    "1500.5").  The rendering of what a written string became is this
    parameter: the database schema, which fixes the column's precision
    and scale, is not in the sources. *)
Variable decimalString : string -> string.

(** get-ativos.ts: the session user's assets, in the order the database
    returns them. *)
Definition getAtivos : Act (list AtivoView) :=
  user <- requireUser ;;
  data <- gets (fun w => map_to_list (filter (fun ia => userId ia.2 = user.1) (ativos w))) ;;
  ret (map (fun ia => mkAtivoView ia.1 (nome ia.2) (risco ia.2) (decimalString (valorInvestido ia.2)))
         data).

End Readers.

(** get-perfil.ts: the profile ordinal of the session user. *)
Definition getPerfil : Act Z :=
  user <- requireUser ;;
  userData <- userFindUnique user.1 ;;
  match userData with
  | None => throw (Thrown "Usuário não encontrado")
  | Some u => ret (perfilNumerico (userPerfil u))
  end.

(** get-user-info.ts. *)
Definition getUserInfo : Act (string * User) :=
  user <- requireUser ;;
  userData <- userFindUnique user.1 ;;
  match userData with
  | None => throw (Thrown "Usuário não encontrado")
  | Some u => ret (user.1, u)
  end.

End Store.
