(* ===== verification/AssetActions.v ===== *)
(** * The asset server actions

    [createAtivo] and [deleteAtivo] of src/app/(private)/actions.ts.
    Both call [requireUser] before their [try], so an unauthenticated
    request leaves with the redirect; inside the [try] every exception
    (a rejected insert, a failed delete) becomes the generic error
    response.  [ApiResponse] is the [{ status, message }] object of
    "@/lib/types", a file the sources import but do not contain.

    The theorems: the store invariant [storeValid] (every asset row
    passes [ativoSchema] and belongs to a registered user) is preserved;
    an asset is only ever deleted by its owner and never changed by
    another user's request; each branch of both actions, errors
    included; and a created asset is read back by [getAtivos]. *)

From S2P Require Import Prelude JsRuntime Effects Risk Validation Store.
Import Effects Risk Validation Store.

Module AssetActions.

(** [ApiResponse]. *)
Inductive Status := Success | Error.

Record ApiResponse := mkApi { status : Status; message : string }.

(** [AtivoSchemaType]: the submitted form. *)
Record AtivoInput := mkAtivoInput { inAtivo : string; inRisco : string; inValor : string }.

Local Open Scope act_scope.

Section Create.

Variable dbAccepts : AtivoRow -> bool.

(** actions.ts, lines 9-45. *)
Definition createAtivo (values : AtivoInput) : Act ApiResponse :=
  session <- requireUser ;;
  tryCatch
    (if negb (success (ativoSchema (inAtivo values) (inRisco values) (inValor values)))
     then ret (mkApi Error "Dados do formulário inválidos")
     else
       ativoCreate dbAccepts
         (mkAtivoRow (inAtivo values) (inRisco values) (inValor values) session.1) ;;;
       revalidatePath "/" ;;;
       ret (mkApi Success "Ativo criado com sucesso"))
    (fun _ => ret (mkApi Error "Falha ao criar ativo")).

End Create.

(** actions.ts, lines 47-86. *)
Definition deleteAtivo (ativoId : string) : Act ApiResponse :=
  session <- requireUser ;;
  tryCatch
    (ativo <- ativoFindUnique ativoId ;;
     match ativo with
     | None => ret (mkApi Error "Ativo não encontrado")
     | Some a =>
       if decide (userId a <> session.1)
       then ret (mkApi Error "Você não tem permissão para deletar este ativo")
       else
         ativoDelete ativoId ;;;
         revalidatePath "/" ;;;
         ret (mkApi Success "Ativo deletado com sucesso")
     end)
    (fun _ => ret (mkApi Error "Falha ao deletar ativo")).

(** ** The store invariant *)

Definition storeValid (w : World) : Prop :=
  forall id a, ativos w !! id = Some a ->
    success (ativoSchema (nome a) (risco a) (valorInvestido a)) = true /\
    is_Some (users w !! userId a).

(** ** Helper lemmas *)

Lemma requireUser_inr (w w' : World) (id : string) (u : User) :
  requireUser w = (inr (id, u), w') -> w' = w /\ session w = Some id /\ users w !! id = Some u.
Proof.
  unfold requireUser. destruct (session w) as [i|]; [|congruence].
  destruct (users w !! i) eqn:E; [|congruence]. intros [= <- <- <-]. auto.
Qed.

Lemma requireUser_inl (w w' : World) (e : Exc) :
  requireUser w = (inl e, w') -> w' = w /\ e = Redirect "/login".
Proof.
  unfold requireUser. destruct (session w) as [i|]; [destruct (users w !! i)|];
    intros H; inversion H; auto.
Qed.

Lemma requireUser_ok (w : World) (id : string) (u : User) :
  session w = Some id -> users w !! id = Some u -> requireUser w = (inr (id, u), w).
Proof. intros Hs Hu. unfold requireUser. by rewrite Hs, Hu. Qed.

Lemma storeValid_insert (w w' : World) (id : string) (row : AtivoRow) :
  storeValid w -> users w' = users w -> ativos w' = <[id := row]> (ativos w) ->
  success (ativoSchema (nome row) (risco row) (valorInvestido row)) = true ->
  is_Some (users w !! userId row) -> storeValid w'.
Proof.
  intros Hw Hus Ha Hs Hu i a. rewrite Hus, Ha, lookup_insert.
  case_decide; [intros [= <-]; auto | apply Hw].
Qed.

Lemma storeValid_delete (w w' : World) (id : string) :
  storeValid w -> users w' = users w -> ativos w' = delete id (ativos w) -> storeValid w'.
Proof. intros Hw Hus Ha i a. rewrite Hus, Ha, lookup_delete. case_decide; [done | apply Hw]. Qed.

(** The steps of [createAtivo] once the session is known. *)
Lemma createAtivo_run (db : AtivoRow -> bool) (v : AtivoInput) (w : World) (id : string) (u : User) :
  session w = Some id -> users w !! id = Some u ->
  let row := mkAtivoRow (inAtivo v) (inRisco v) (inValor v) id in
  createAtivo db v w =
    if negb (success (ativoSchema (inAtivo v) (inRisco v) (inValor v)))
    then (inr (mkApi Error "Dados do formulário inválidos"), w)
    else if db row
    then (inr (mkApi Success "Ativo criado com sucesso"),
          mkWorld (users w) (<[fresh (dom (ativos w)) := row]> (ativos w)) (session w)
                  ("/" :: revalidated w))
    else (inr (mkApi Error "Falha ao criar ativo"), w).
Proof.
  intros Hs Hu row. unfold createAtivo. rewrite (bind_inr _ _ _ _ _ (requireUser_ok w id u Hs Hu)).
  simpl. destruct (success _); simpl; [|done].
  unfold tryCatch, bind, ativoCreate. fold row. by destruct (db row).
Qed.

(** The steps of [deleteAtivo] once the session is known. *)
Lemma deleteAtivo_run (ativoId : string) (w : World) (id : string) (u : User) :
  session w = Some id -> users w !! id = Some u ->
  deleteAtivo ativoId w =
    match ativos w !! ativoId with
    | None => (inr (mkApi Error "Ativo não encontrado"), w)
    | Some a =>
      if decide (userId a = id)
      then (inr (mkApi Success "Ativo deletado com sucesso"),
            mkWorld (users w) (delete ativoId (ativos w)) (session w) ("/" :: revalidated w))
      else (inr (mkApi Error "Você não tem permissão para deletar este ativo"), w)
    end.
Proof.
  intros Hs Hu. unfold deleteAtivo. rewrite (bind_inr _ _ _ _ _ (requireUser_ok w id u Hs Hu)).
  unfold tryCatch, bind, ativoFindUnique, gets. simpl.
  destruct (ativos w !! ativoId) as [a|] eqn:Ha; [|done].
  do 2 case_decide; try done. unfold ativoDelete. by rewrite Ha.
Qed.

(** Both actions with an unknown session. *)
Lemma assetActions_no_user (w : World) :
  (forall id, session w = Some id -> users w !! id = None) ->
  requireUser w = (inl (Redirect "/login"), w).
Proof.
  intros H. unfold requireUser. destruct (session w) as [i|]; [|done]. by rewrite H.
Qed.

(** Case analysis on the session of a world. *)
Lemma session_cases (w : World) :
  (exists id u, session w = Some id /\ users w !! id = Some u) \/
  requireUser w = (inl (Redirect "/login"), w).
Proof.
  destruct (session w) as [i|] eqn:Hs; [destruct (users w !! i) eqn:Hu|].
  - left. eauto.
  - right. apply assetActions_no_user. intros j Hj. congruence.
  - right. apply assetActions_no_user. congruence.
Qed.

(** ** Properties of the asset actions *)

(** The invariant, action by action. *)
Lemma createAtivo_storeValid (db : AtivoRow -> bool) (v : AtivoInput) :
  preserves storeValid (createAtivo db v).
Proof.
  intros w Hw. unfold final.
  destruct (session_cases w) as [(id & u & Hs & Hu) | Hr];
    [| unfold createAtivo, bind; by rewrite Hr].
  rewrite (createAtivo_run db v w id u Hs Hu). cbv zeta.
  destruct (success _) eqn:Hv; simpl; [|done]. destruct (db _); simpl; [|done].
  eapply storeValid_insert; [exact Hw | done | done | done | simpl; by rewrite Hu].
Qed.

Lemma deleteAtivo_storeValid (ativoId : string) : preserves storeValid (deleteAtivo ativoId).
Proof.
  intros w Hw. unfold final.
  destruct (session_cases w) as [(id & u & Hs & Hu) | Hr];
    [| unfold deleteAtivo, bind; by rewrite Hr].
  rewrite (deleteAtivo_run ativoId w id u Hs Hu).
  destruct (ativos w !! ativoId); [|done]. case_decide; [|done].
  by eapply storeValid_delete.
Qed.

(** The asset actions do not touch the users. *)
Lemma assetActions_users (db : AtivoRow -> bool) (v : AtivoInput) (ativoId : string) (w : World) :
  users (final (createAtivo db v) w) = users w /\ users (final (deleteAtivo ativoId) w) = users w.
Proof.
  unfold final. destruct (session_cases w) as [(id & u & Hs & Hu) | Hr];
    [| unfold createAtivo, deleteAtivo, bind; by rewrite Hr].
  rewrite (createAtivo_run db v w id u Hs Hu), (deleteAtivo_run ativoId w id u Hs Hu). cbv zeta.
  split; [destruct (negb _); [|destruct (db _)] | destruct (ativos w !! ativoId); [case_decide|]];
    done.
Qed.

(** C4. Invariant: both asset actions keep every stored asset valid
    for [ativoSchema] and owned by a registered user. *)
Theorem assetActions_preserve_storeValid (db : AtivoRow -> bool) (v : AtivoInput) (ativoId : string) :
  preserves storeValid (createAtivo db v) /\ preserves storeValid (deleteAtivo ativoId).
Proof. split; [apply createAtivo_storeValid | apply deleteAtivo_storeValid]. Qed.

(** ** Functional behaviour and safety *)

(** C5. Safety: no request changes an asset of another user: an asset
    whose owner is not the session's user is still there, unchanged,
    after [createAtivo] and after [deleteAtivo], whatever the arguments. *)
Theorem assetActions_owner_only (db : AtivoRow -> bool) (v : AtivoInput) (ativoId : string)
    (w : World) (id : string) (a : AtivoRow) :
  ativos w !! id = Some a -> session w <> Some (userId a) ->
  ativos (final (createAtivo db v) w) !! id = Some a /\
  ativos (final (deleteAtivo ativoId) w) !! id = Some a.
Proof.
  intros Ha Hown. unfold final.
  destruct (session_cases w) as [(sid & u & Hs & Hu) | Hr];
    [| unfold createAtivo, deleteAtivo, bind; by rewrite Hr].
  rewrite (createAtivo_run db v w sid u Hs Hu), (deleteAtivo_run ativoId w sid u Hs Hu).
  cbv zeta. split.
  - destruct (negb _); [done|]. destruct (db _); [|done]. simpl.
    rewrite lookup_insert_ne; [done|]. intros Heq.
    apply (is_fresh (dom (ativos w))). rewrite Heq. by apply elem_of_dom.
  - destruct (ativos w !! ativoId) as [b|] eqn:Hb; [|done]. case_decide; [|done]. simpl.
    rewrite lookup_delete_ne; [done|]. intros ->. congruence.
Qed.

(** C16. Error path: a request without a valid session leaves both
    actions with [redirect("/login")] before their [try], and the world
    as it was. *)
Theorem assetActions_unauthenticated (db : AtivoRow -> bool) (v : AtivoInput) (ativoId : string)
    (w : World) :
  (forall id, session w = Some id -> users w !! id = None) ->
  createAtivo db v w = (inl (Redirect "/login"), w) /\
  deleteAtivo ativoId w = (inl (Redirect "/login"), w).
Proof.
  intros H. pose proof (assetActions_no_user w H) as Hr.
  unfold createAtivo, deleteAtivo, bind. by rewrite Hr.
Qed.

(** C9. [createAtivo] for a signed-in user: it reports success exactly
    when the form passes [ativoSchema] and the database takes the row,
    and then the new asset is stored under a fresh id, owned by the
    user, and "/" is revalidated; every other outcome is an error
    response that leaves the world unchanged. *)
Theorem createAtivo_outcome (db : AtivoRow -> bool) (v : AtivoInput) (w : World)
    (id : string) (u : User) :
  session w = Some id -> users w !! id = Some u ->
  let row := mkAtivoRow (inAtivo v) (inRisco v) (inValor v) id in
  (exists r, fst (createAtivo db v w) = inr r /\
    (status r = Success <-> success (ativoSchema (inAtivo v) (inRisco v) (inValor v)) = true /\
                           db row = true)) /\
  (fst (createAtivo db v w) = inr (mkApi Success "Ativo criado com sucesso") ->
   ativos (final (createAtivo db v) w) = <[fresh (dom (ativos w)) := row]> (ativos w) /\
   ativos w !! fresh (dom (ativos w)) = None /\
   revalidated (final (createAtivo db v) w) = "/" :: revalidated w) /\
  (fst (createAtivo db v w) <> inr (mkApi Success "Ativo criado com sucesso") ->
   final (createAtivo db v) w = w).
Proof.
  intros Hs Hu row. unfold final. rewrite (createAtivo_run db v w id u Hs Hu). fold row.
  destruct (success _); simpl; [destruct (db row)|]; simpl;
    (split; [eexists; split; [reflexivity | simpl; intuition congruence] |]);
    split; intros H; try congruence.
  split; [done|]. split; [|done]. apply not_elem_of_dom, is_fresh.
Qed.

(** C14. Read your writes: after a successful [createAtivo], [getAtivos]
    in the same session lists the new asset under its new id, with the
    submitted name and risk and the amount as the decimal column renders
    the submitted string; and it lists only assets the user owns. *)
Theorem createAtivo_getAtivos (decimalString : string -> string) (db : AtivoRow -> bool)
    (v : AtivoInput) (w : World) (id : string) (u : User) :
  session w = Some id -> users w !! id = Some u ->
  fst (createAtivo db v w) = inr (mkApi Success "Ativo criado com sucesso") ->
  let w' := final (createAtivo db v) w in
  exists views, getAtivos decimalString w' = (inr views, w') /\
    In (mkAtivoView (fresh (dom (ativos w))) (inAtivo v) (inRisco v) (decimalString (inValor v)))
      views /\
    (forall view, In view views -> exists a, ativos w' !! viewId view = Some a /\ userId a = id).
Proof.
  intros Hs Hu. unfold final. rewrite (createAtivo_run db v w id u Hs Hu). cbv zeta.
  destruct (success _); simpl; [|done]. destruct (db _); simpl; [|done]. intros _.
  unfold getAtivos, bind, gets, ret, requireUser. simpl. rewrite Hs, Hu.
  eexists. split; [reflexivity|]. split.
  - apply in_map_iff.
    exists (fresh (dom (ativos w)), mkAtivoRow (inAtivo v) (inRisco v) (inValor v) id).
    split; [done|]. apply list_elem_of_In, elem_of_map_to_list, map_lookup_filter_Some.
    split; [apply lookup_insert_eq | done].
  - intros view Hv. apply in_map_iff in Hv as ([i a] & <- & Hin).
    apply list_elem_of_In, elem_of_map_to_list, map_lookup_filter_Some in Hin as [Ha Ho].
    exists a. split; [exact Ha | exact Ho].
Qed.

(** C10. [deleteAtivo] for a signed-in user: it reports success exactly
    when the asset exists and belongs to the user, and then the asset is
    gone and "/" is revalidated; a missing asset and another user's asset
    give their own error messages and leave the world unchanged. *)
Theorem deleteAtivo_outcome (ativoId : string) (w : World) (id : string) (u : User) :
  session w = Some id -> users w !! id = Some u ->
  (ativos w !! ativoId = None ->
   deleteAtivo ativoId w = (inr (mkApi Error "Ativo não encontrado"), w)) /\
  (forall a, ativos w !! ativoId = Some a -> userId a <> id ->
   deleteAtivo ativoId w = (inr (mkApi Error "Você não tem permissão para deletar este ativo"), w)) /\
  (forall a, ativos w !! ativoId = Some a -> userId a = id ->
   fst (deleteAtivo ativoId w) = inr (mkApi Success "Ativo deletado com sucesso") /\
   ativos (final (deleteAtivo ativoId) w) !! ativoId = None /\
   users (final (deleteAtivo ativoId) w) = users w /\
   revalidated (final (deleteAtivo ativoId) w) = "/" :: revalidated w).
Proof.
  intros Hs Hu. unfold final. rewrite (deleteAtivo_run ativoId w id u Hs Hu).
  split; [by intros ->|]. split; intros a -> Ho; case_decide; try done.
  simpl. by rewrite lookup_delete_eq.
Qed.

(** ** Witnesses *)

(** A user [u1] signed in, and an asset [a1] of another user [u2]. *)
Definition demoRow : AtivoRow := mkAtivoRow "PETR4" "Médio" "5000" "u2".

Definition demoWorld : World :=
  mkWorld {[ "u1" := mkUser "Ana" "ana@exemplo.com" "Moderado" 0 ]}
          {[ "a1" := demoRow ]} (Some "u1") [].

Definition demoInput : AtivoInput := mkAtivoInput "VALE3" "Alto" "1500".

Lemma assetActions_owner_only_witness :
  ativos (final (createAtivo (fun _ => true) demoInput) demoWorld) !! "a1" = Some demoRow /\
  ativos (final (deleteAtivo "a1") demoWorld) !! "a1" = Some demoRow.
Proof.
  apply assetActions_owner_only; [vm_compute; reflexivity | intros H; vm_compute in H; discriminate H].
Defined.

Lemma assetActions_unauthenticated_witness :
  createAtivo (fun _ => true) demoInput (mkWorld ∅ ∅ None []) =
    (inl (Redirect "/login"), mkWorld ∅ ∅ None []) /\
  deleteAtivo "a1" (mkWorld ∅ ∅ None []) = (inl (Redirect "/login"), mkWorld ∅ ∅ None []).
Proof. apply assetActions_unauthenticated. intros id H. discriminate H. Defined.

Lemma createAtivo_outcome_witness :
  exists u, users demoWorld !! "u1" = Some u /\
  (exists r, fst (createAtivo (fun _ => true) demoInput demoWorld) = inr r /\
    (status r = Success <-> success (ativoSchema "VALE3" "Alto" "1500") = true /\ true = true)).
Proof.
  eexists. split; [vm_compute; reflexivity|].
  exact (proj1 (createAtivo_outcome (fun _ => true) demoInput demoWorld "u1" _
                  eq_refl eq_refl)).
Defined.

(** The column renders "1500.50" as "1500.5". *)
Definition demoDecimal (s : string) : string := if String.eqb s "1500.50" then "1500.5" else s.

Lemma createAtivo_getAtivos_witness :
  exists views,
    getAtivos demoDecimal (final (createAtivo (fun _ => true) (mkAtivoInput "VALE3" "Alto" "1500.50"))
                             demoWorld) =
      (inr views, final (createAtivo (fun _ => true) (mkAtivoInput "VALE3" "Alto" "1500.50")) demoWorld) /\
    In (mkAtivoView (fresh (dom (ativos demoWorld))) "VALE3" "Alto" "1500.5") views.
Proof.
  destruct (createAtivo_getAtivos demoDecimal (fun _ => true) (mkAtivoInput "VALE3" "Alto" "1500.50")
              demoWorld "u1" (mkUser "Ana" "ana@exemplo.com" "Moderado" 0)) as (views & H1 & H2 & _);
    [vm_compute; reflexivity .. |].
  exists views. split; [exact H1 | exact H2].
Defined.

Lemma deleteAtivo_outcome_witness :
  fst (deleteAtivo "a1" (setAtivos (insert "a1" (mkAtivoRow "PETR4" "Médio" "5000" "u1")) demoWorld)) =
    inr (mkApi Success "Ativo deletado com sucesso").
Proof.
  refine (proj1 ((proj2 (proj2 (deleteAtivo_outcome "a1" _ "u1"
            (mkUser "Ana" "ana@exemplo.com" "Moderado" 0) _ _)))
            (mkAtivoRow "PETR4" "Médio" "5000" "u1") _ _)); vm_compute; reflexivity.
Defined.

End AssetActions.
