(* ===== verification/ProfileActions.v ===== *)
(** * The profile server actions

    [updateName], [updateEmail] and [updatePerfilInvestidor] of
    src/app/(private)/profile/actions.ts.  Unlike the asset actions,
    each calls [requireUser] inside its [try]: the [NEXT_REDIRECT]
    exception of [redirect("/login")] is not a [ZodError], so the
    [catch] turns it into the action's generic error response.  The
    schema's [parse] throws a [ZodError] whose first issue's message is
    returned; [updateEmail] refuses an e-mail another user holds before
    writing it.

    The theorems: an unauthenticated request gets the generic error, not
    the redirect; the three actions keep e-mails unique and the asset
    invariant of [AssetActions]; invalid input is answered with the first
    issue of the schema and changes nothing; [updateEmail]'s branches;
    and a profile written by [updatePerfilInvestidor] is the one
    [getPerfil] reads back. *)

From S2P Require Import Prelude JsRuntime Effects Risk Validation Store AssetActions.
Import Effects Risk Validation Store AssetActions.

Module ProfileActions.

Local Open Scope act_scope.

(** [schema.parse(data)]: the data, or a [ZodError] with the issues. *)
Definition zParse (issues : list Issue) : Act unit :=
  if success issues then ret tt else throw (ZodError issues).

(** The [catch] block shared by the three actions: a [ZodError] gives its
    first issue's message; [issues[0].message] on an empty list would
    throw a [TypeError] out of the [catch]; anything else gives the
    action's generic message. *)
Definition zodCatch (generic : string) (e : Exc) : Act ApiResponse :=
  match e with
  | ZodError (i :: _) => ret (mkApi Error i.2)
  | ZodError [] => throw (Thrown "TypeError")
  | _ => ret (mkApi Error generic)
  end.

Definition setName (n : string) (u : User) : User :=
  mkUser n (userEmail u) (userPerfil u) (userCreatedAt u).

Definition setEmail (e : string) (u : User) : User :=
  mkUser (userName u) e (userPerfil u) (userCreatedAt u).

Definition setPerfil (p : string) (u : User) : User :=
  mkUser (userName u) (userEmail u) p (userCreatedAt u).

(** Lines 28-60. *)
Definition updateName (name : string) : Act ApiResponse :=
  tryCatch
    (user <- requireUser ;;
     zParse (updateNameSchema name) ;;;
     userUpdate user.1 (setName name) ;;;
     revalidatePath "/profile" ;;;
     ret (mkApi Success "Nome atualizado com sucesso!"))
    (zodCatch "Erro ao atualizar nome. Tente novamente.").

Section Email.

Variable isEmail : string -> bool.

(** Lines 62-106. *)
Definition updateEmail (email : string) : Act ApiResponse :=
  tryCatch
    (user <- requireUser ;;
     zParse (updateEmailSchema isEmail email) ;;;
     existingUser <- userFindByEmail email ;;
     if (match existingUser with
         | Some eu => bool_decide (eu.1 <> user.1)
         | None => false
         end)
     then ret (mkApi Error "Este email já está em uso.")
     else
       userUpdate user.1 (setEmail email) ;;;
       revalidatePath "/profile" ;;;
       ret (mkApi Success "E-mail atualizado com sucesso!"))
    (zodCatch "Erro ao atualizar email. Tente novamente.").

End Email.

(** Lines 108-143. *)
Definition updatePerfilInvestidor (perfil : string) : Act ApiResponse :=
  tryCatch
    (user <- requireUser ;;
     zParse (updatePerfilSchema perfil) ;;;
     userUpdate user.1 (setPerfil perfil) ;;;
     revalidatePath "/profile" ;;;
     revalidatePath "/" ;;;
     ret (mkApi Success "Perfil de investidor atualizado com sucesso!"))
    (zodCatch "Erro ao atualizar perfil. Tente novamente.").

(** The uniqueness of [user.email], which [findUnique({ where: { email } })]
    presupposes. *)
Definition emailsUnique (w : World) : Prop :=
  forall i j ui uj, users w !! i = Some ui -> users w !! j = Some uj ->
    userEmail ui = userEmail uj -> i = j.

(** ** Helper lemmas *)

Lemma success_cons (i : Issue) (l : list Issue) : success (i :: l) = false.
Proof. unfold success. by apply bool_decide_eq_false. Qed.

(** A redirect thrown by [requireUser] inside the [try] is caught. *)
Lemma tryCatch_no_user (w : World) (k : string * User -> Act ApiResponse) (g : string) :
  requireUser w = (inl (Redirect "/login"), w) ->
  tryCatch (user <- requireUser ;; k user) (zodCatch g) w = (inr (mkApi Error g), w).
Proof. intros H. unfold tryCatch, bind. by rewrite H. Qed.

(** [requireUser] then [parse] inside the [try], for a signed-in user. *)
Lemma tryCatch_parse (w : World) (id : string) (u : User) (issues : list Issue)
    (k : string * User -> Act ApiResponse) (g : string) :
  requireUser w = (inr (id, u), w) ->
  tryCatch (user <- requireUser ;; zParse issues ;;; k user) (zodCatch g) w =
    match issues with
    | [] => tryCatch (k (id, u)) (zodCatch g) w
    | i :: _ => (inr (mkApi Error i.2), w)
    end.
Proof.
  intros H. unfold tryCatch, bind at 1. rewrite H. unfold zParse.
  destruct issues as [|i l]; [done|]. by rewrite success_cons.
Qed.

(** The update and the revalidations, once the input is valid. *)
Lemma update_run (w : World) (id : string) (u : User) (f : User -> User) (g : string)
    (rest : Act ApiResponse) :
  users w !! id = Some u ->
  tryCatch (userUpdate id f ;;; rest) (zodCatch g) w =
    tryCatch rest (zodCatch g) (setUsers (insert id (f u)) w).
Proof. intros Hu. unfold tryCatch, bind, userUpdate. by rewrite Hu. Qed.

Lemma tryCatch_gets {A B} (f : World -> A) (k : A -> Act B) (h : Exc -> Act B) (w : World) :
  tryCatch (x <- gets f ;; k x) h w = tryCatch (k (f w)) h w.
Proof. done. Qed.

(** The holder of an e-mail as [findUnique] sees it: under uniqueness,
    the code's test lets the update through exactly when no user other
    than [id] holds the address. *)
Lemma emailFree_iff (w : World) (e id : string) :
  emailsUnique w ->
  (match head (map_to_list (filter (fun iu : string * User => userEmail iu.2 = e) (users w))) with
   | Some eu => bool_decide (eu.1 <> id)
   | None => false
   end) = false <->
  (forall j uj, users w !! j = Some uj -> userEmail uj = e -> j = id).
Proof.
  intros Hun.
  destruct (map_to_list _) as [|[j uj] l] eqn:Hl; simpl.
  - split; [|done]. intros _ j uj Hj He. apply map_to_list_empty_iff in Hl.
    assert (Hf : filter (fun iu : string * User => userEmail iu.2 = e) (users w) !! j = Some uj)
      by (apply map_lookup_filter_Some; auto).
    by rewrite Hl, lookup_empty in Hf.
  - assert (Hj : (j, uj) ∈ map_to_list (filter (fun iu : string * User => userEmail iu.2 = e) (users w)))
      by (rewrite Hl; left).
    apply elem_of_map_to_list, map_lookup_filter_Some in Hj as [Hj He]. simpl in He.
    rewrite bool_decide_eq_false. split.
    + intros Hn. destruct (decide (j = id)) as [<-|]; [|contradiction].
      intros j' uj' Hj' He'. eapply Hun; [exact Hj' | exact Hj | congruence].
    + intros H Hne. exact (Hne (H j uj Hj He)).
Qed.

Lemma emailsUnique_insert (w w' : World) (id : string) (u' : User) :
  emailsUnique w -> users w' = <[id := u']> (users w) ->
  (forall j uj, users w !! j = Some uj -> userEmail uj = userEmail u' -> j = id) ->
  emailsUnique w'.
Proof.
  intros Hun Hw' Hfree i j ui uj. rewrite Hw', !lookup_insert.
  do 2 case_decide; subst; intros Hi Hj He; simplify_eq; try done.
  - symmetry. by apply (Hfree j uj).
  - by apply (Hfree i ui).
  - by apply (Hun i j ui uj).
Qed.

(** Changing a field other than the e-mail keeps every e-mail held once. *)
Lemma emailsUnique_same_email (w : World) (id : string) (u u' : User) :
  emailsUnique w -> users w !! id = Some u -> userEmail u' = userEmail u ->
  forall j uj, users w !! j = Some uj -> userEmail uj = userEmail u' -> j = id.
Proof. intros Hun Hu He j uj Hj Hje. eapply Hun; [exact Hj | exact Hu | congruence]. Qed.

Lemma storeValid_users_insert (w w' : World) (id : string) (u u' : User) :
  storeValid w -> users w !! id = Some u ->
  users w' = <[id := u']> (users w) -> ativos w' = ativos w -> storeValid w'.
Proof.
  intros Hw Hu Hus Ha i a. rewrite Hus, Ha. intros Hi. destruct (Hw i a Hi) as [Hs Hown].
  split; [done|]. rewrite lookup_insert. case_decide; [done | exact Hown].
Qed.

(** The three actions for a signed-in user. *)
Lemma updateName_run (w : World) (id : string) (u : User) (name : string) :
  session w = Some id -> users w !! id = Some u ->
  updateName name w =
    match updateNameSchema name with
    | [] => (inr (mkApi Success "Nome atualizado com sucesso!"),
             mkWorld (<[id := setName name u]> (users w)) (ativos w) (session w)
                     ("/profile" :: revalidated w))
    | i :: _ => (inr (mkApi Error i.2), w)
    end.
Proof.
  intros Hs Hu. unfold updateName. rewrite (tryCatch_parse w id u); [|by apply requireUser_ok].
  destruct (updateNameSchema name); [|done]. simpl. by rewrite (update_run w id u).
Qed.

Lemma updatePerfil_run (w : World) (id : string) (u : User) (perfil : string) :
  session w = Some id -> users w !! id = Some u ->
  updatePerfilInvestidor perfil w =
    match updatePerfilSchema perfil with
    | [] => (inr (mkApi Success "Perfil de investidor atualizado com sucesso!"),
             mkWorld (<[id := setPerfil perfil u]> (users w)) (ativos w) (session w)
                     ("/" :: "/profile" :: revalidated w))
    | i :: _ => (inr (mkApi Error i.2), w)
    end.
Proof.
  intros Hs Hu. unfold updatePerfilInvestidor.
  rewrite (tryCatch_parse w id u); [|by apply requireUser_ok].
  destruct (updatePerfilSchema perfil); [|done]. simpl. by rewrite (update_run w id u).
Qed.

Lemma updateEmail_run (isEmail : string -> bool) (w : World) (id : string) (u : User) (email : string) :
  session w = Some id -> users w !! id = Some u ->
  updateEmail isEmail email w =
    match updateEmailSchema isEmail email with
    | [] =>
      if (match head (map_to_list (filter (fun iu : string * User => userEmail iu.2 = email) (users w))) with
          | Some eu => bool_decide (eu.1 <> id)
          | None => false
          end)
      then (inr (mkApi Error "Este email já está em uso."), w)
      else (inr (mkApi Success "E-mail atualizado com sucesso!"),
            mkWorld (<[id := setEmail email u]> (users w)) (ativos w) (session w)
                    ("/profile" :: revalidated w))
    | i :: _ => (inr (mkApi Error i.2), w)
    end.
Proof.
  intros Hs Hu. unfold updateEmail. rewrite (tryCatch_parse w id u); [|by apply requireUser_ok].
  destruct (updateEmailSchema isEmail email); [|done]. simpl.
  unfold userFindByEmail. rewrite tryCatch_gets.
  destruct (match _ with Some eu => _ | None => false end); [done|].
  by rewrite (update_run w id u).
Qed.

(** ** Properties of the profile actions *)

(** C8. Error path: without a valid session the [redirect("/login")]
    of [requireUser] is thrown inside the [try] and caught, so each
    profile action answers with its generic error message instead of
    redirecting, and changes nothing. *)
Theorem profileActions_redirect_caught (isEmail : string -> bool) (n e p : string) (w : World) :
  (forall id, session w = Some id -> users w !! id = None) ->
  updateName n w = (inr (mkApi Error "Erro ao atualizar nome. Tente novamente."), w) /\
  updateEmail isEmail e w = (inr (mkApi Error "Erro ao atualizar email. Tente novamente."), w) /\
  updatePerfilInvestidor p w = (inr (mkApi Error "Erro ao atualizar perfil. Tente novamente."), w).
Proof.
  intros H. pose proof (assetActions_no_user w H) as Hr.
  split; [|split]; apply tryCatch_no_user, Hr.
Qed.

(** The two invariants, action by action. *)
Lemma updateName_inv (n : string) :
  preserves (fun w => emailsUnique w /\ storeValid w) (updateName n).
Proof.
  intros w [Hun Hsv]. unfold final.
  destruct (session_cases w) as [(id & u & Hs & Hu) | Hr];
    [| unfold updateName; rewrite tryCatch_no_user by exact Hr; by split].
  rewrite (updateName_run w id u n Hs Hu). destruct (updateNameSchema n); [|by split].
  split; [eapply emailsUnique_insert; [exact Hun | done |] | by eapply storeValid_users_insert].
  by apply (emailsUnique_same_email w id u).
Qed.

Lemma updateEmail_inv (isEmail : string -> bool) (e : string) :
  preserves (fun w => emailsUnique w /\ storeValid w) (updateEmail isEmail e).
Proof.
  intros w [Hun Hsv]. unfold final.
  destruct (session_cases w) as [(id & u & Hs & Hu) | Hr];
    [| unfold updateEmail; rewrite tryCatch_no_user by exact Hr; by split].
  rewrite (updateEmail_run isEmail w id u e Hs Hu). destruct (updateEmailSchema isEmail e); [|by split].
  destruct (match _ with Some eu => _ | None => false end) eqn:Hfree; [by split|].
  split; [eapply emailsUnique_insert; [exact Hun | done |] | by eapply storeValid_users_insert].
  by apply (emailFree_iff w e id Hun).
Qed.

Lemma updatePerfil_inv (p : string) :
  preserves (fun w => emailsUnique w /\ storeValid w) (updatePerfilInvestidor p).
Proof.
  intros w [Hun Hsv]. unfold final.
  destruct (session_cases w) as [(id & u & Hs & Hu) | Hr];
    [| unfold updatePerfilInvestidor; rewrite tryCatch_no_user by exact Hr; by split].
  rewrite (updatePerfil_run w id u p Hs Hu). destruct (updatePerfilSchema p); [|by split].
  split; [eapply emailsUnique_insert; [exact Hun | done |] | by eapply storeValid_users_insert].
  by apply (emailsUnique_same_email w id u).
Qed.

(** C6. Invariant: the three profile actions keep every e-mail held by
    at most one user, and keep the asset invariant [storeValid]. *)
Theorem profileActions_preserve_invariants (isEmail : string -> bool) (n e p : string) :
  let I := fun w => emailsUnique w /\ storeValid w in
  preserves I (updateName n) /\ preserves I (updateEmail isEmail e) /\
  preserves I (updatePerfilInvestidor p).
Proof. split; [|split]; [apply updateName_inv | apply updateEmail_inv | apply updatePerfil_inv]. Qed.

(** C17. Error path: for a signed-in user, input the schema rejects is
    answered with the message of the first issue zod reports, and the
    world is unchanged; e.g. a one-letter name gives "O nome deve ter
    pelo menos 2 caracteres". *)
Theorem profileActions_invalid_input (isEmail : string -> bool) (w : World) (id : string)
    (u : User) (n e p : string) :
  session w = Some id -> users w !! id = Some u ->
  (forall i l, updateNameSchema n = i :: l -> updateName n w = (inr (mkApi Error i.2), w)) /\
  (forall i l, updateEmailSchema isEmail e = i :: l ->
               updateEmail isEmail e w = (inr (mkApi Error i.2), w)) /\
  (forall i l, updatePerfilSchema p = i :: l ->
               updatePerfilInvestidor p w = (inr (mkApi Error i.2), w)).
Proof.
  intros Hs Hu.
  rewrite (updateName_run w id u n Hs Hu), (updateEmail_run isEmail w id u e Hs Hu),
    (updatePerfil_run w id u p Hs Hu).
  split; [|split]; intros i l ->; done.
Qed.

(** C11. [updateEmail] for a signed-in user and a well-formed address,
    with e-mails unique: if another user holds the address the answer is
    "Este email já está em uso." and nothing changes; otherwise the
    user's e-mail becomes the address, nothing else of the user changes,
    and "/profile" is revalidated. *)
Theorem updateEmail_outcome (isEmail : string -> bool) (w : World) (id : string) (u : User)
    (e : string) :
  session w = Some id -> users w !! id = Some u -> emailsUnique w ->
  updateEmailSchema isEmail e = [] ->
  ((exists j uj, users w !! j = Some uj /\ userEmail uj = e /\ j <> id) ->
   updateEmail isEmail e w = (inr (mkApi Error "Este email já está em uso."), w)) /\
  ((forall j uj, users w !! j = Some uj -> userEmail uj = e -> j = id) ->
   fst (updateEmail isEmail e w) = inr (mkApi Success "E-mail atualizado com sucesso!") /\
   users (final (updateEmail isEmail e) w) !! id =
     Some (mkUser (userName u) e (userPerfil u) (userCreatedAt u)) /\
   ativos (final (updateEmail isEmail e) w) = ativos w /\
   revalidated (final (updateEmail isEmail e) w) = "/profile" :: revalidated w).
Proof.
  intros Hs Hu Hun Hv. unfold final.
  rewrite (updateEmail_run isEmail w id u e Hs Hu), Hv.
  pose proof (emailFree_iff w e id Hun) as Hiff.
  destruct (match _ with Some eu => _ | None => false end); split; intros H.
  - done.
  - apply Hiff in H. discriminate.
  - destruct H as (j & uj & Hj & He & Hne). exfalso. apply Hne. by apply (proj1 Hiff eq_refl j uj).
  - simpl. by rewrite lookup_insert_eq.
Qed.

(** C15. Round trip: after [updatePerfilInvestidor] with one of the three
    profiles succeeds, [getPerfil] in the same session reads back the
    ordinal whose label is that profile. *)
Theorem updatePerfil_getPerfil (w : World) (id : string) (u : User) (p : string) :
  session w = Some id -> users w !! id = Some u -> p ∈ perfilInvestidor ->
  fst (updatePerfilInvestidor p w) = inr (mkApi Success "Perfil de investidor atualizado com sucesso!") /\
  exists z, getPerfil (final (updatePerfilInvestidor p) w) = (inr z, final (updatePerfilInvestidor p) w) /\
    perfilParaTexto z = p.
Proof.
  intros Hs Hu Hp. unfold final. rewrite (updatePerfil_run w id u p Hs Hu).
  assert (Hv : updatePerfilSchema p = []).
  { unfold updatePerfilSchema. apply field_nil. constructor; [|constructor]. by apply zEnum_none. }
  rewrite Hv. split; [done|]. eexists. split.
  - unfold getPerfil, bind, userFindUnique, gets, ret, requireUser. simpl.
    rewrite Hs, lookup_insert_eq. simpl. rewrite lookup_insert_eq. reflexivity.
  - simpl. unfold perfilInvestidor in Hp. rewrite !elem_of_cons, elem_of_nil in Hp.
    destruct Hp as [-> | [-> | [-> | []]]]; reflexivity.
Qed.

(** ** Witnesses *)

Definition demoUser : User := mkUser "Ana" "ana@exemplo.com" "Moderado" 0.

Lemma emailsUnique_demoWorld : emailsUnique demoWorld.
Proof.
  intros i j ui uj Hi Hj _. simpl in Hi, Hj.
  apply lookup_singleton_Some in Hi as [<- _], Hj as [<- _]. reflexivity.
Qed.

Lemma profileActions_redirect_caught_witness :
  updateName "Bia" (mkWorld ∅ ∅ None []) =
    (inr (mkApi Error "Erro ao atualizar nome. Tente novamente."), mkWorld ∅ ∅ None []).
Proof.
  refine (proj1 (profileActions_redirect_caught (fun _ => true) "Bia" "bia@exemplo.com" "Arrojado"
                   (mkWorld ∅ ∅ None []) _)).
  intros id H. discriminate H.
Defined.

Lemma profileActions_invalid_input_witness :
  updateName "A" demoWorld = (inr (mkApi Error "O nome deve ter pelo menos 2 caracteres"), demoWorld).
Proof.
  refine (proj1 (profileActions_invalid_input (fun _ => true) demoWorld "u1" demoUser "A"
                   "ana@exemplo.com" "Moderado" _ _)
            ("name", "O nome deve ter pelo menos 2 caracteres") [] _); vm_compute; reflexivity.
Defined.

Lemma updateEmail_outcome_witness :
  users (final (updateEmail (fun _ => true) "ana@novo.com") demoWorld) !! "u1" =
    Some (mkUser "Ana" "ana@novo.com" "Moderado" 0).
Proof.
  refine (proj1 (proj2 (proj2 (updateEmail_outcome (fun _ => true) demoWorld "u1" demoUser
                                 "ana@novo.com" _ _ emailsUnique_demoWorld _) _)));
    [vm_compute; reflexivity .. |].
  intros j uj Hj He. simpl in Hj. apply lookup_singleton_Some in Hj as [<- <-]. discriminate He.
Defined.

Lemma updatePerfil_getPerfil_witness :
  fst (updatePerfilInvestidor "Arrojado" demoWorld) =
    inr (mkApi Success "Perfil de investidor atualizado com sucesso!").
Proof.
  refine (proj1 (updatePerfil_getPerfil demoWorld "u1" demoUser "Arrojado" _ _ _));
    [vm_compute; reflexivity .. |].
  unfold perfilInvestidor. right. right. left.
Defined.

End ProfileActions.
