(* ===== verification/AuthActions.v ===== *)
(** * The authentication server actions

    [signIn] and [signUp] of src/server/users.ts.  Each awaits a call of
    the better-auth library ([auth.api.signInEmail], [auth.api.signUpEmail]),
    which is not part of the sources: the section takes its outcome as a
    parameter, [None] when the promise resolves and [Some e] when it
    rejects with the value [e].  A rejection is answered with
    [getTranslatedAuthError(error, default)].

    The theorem: on an [Error] rejection whose [message] is a string (its
    own, or the empty one it inherits from [Error.prototype]) the answer
    is the translation of that message, so the caller's default message
    is never the one shown for an [Error]. *)

From S2P Require Import Prelude JsRuntime AuthTranslations.
Import AuthTranslations.

Module AuthActions.

(** The [{ success, message }] object both actions return. *)
Record AuthResult := mkAuthResult { ok : bool; message : JsVal }.

Section Auth.

(** The outcome of [auth.api.signInEmail({ body: { email, password } })]. *)
Variable signInEmail : string -> string -> option JsVal.

(** The outcome of [auth.api.signUpEmail({ body: { name, email, password,
    perfilInvestidor } })]. *)
Variable signUpEmail : string -> string -> string -> string -> option JsVal.

(** Lines 6-24. *)
Definition signIn (email password : string) : AuthResult :=
  match signInEmail email password with
  | None => mkAuthResult true (VStr "Login realizado com sucesso")
  | Some error => mkAuthResult false (getTranslatedAuthError error "Erro ao realizar login")
  end.

(** Lines 26-52. *)
Definition signUp (name email password perfilInvestidor : string) : AuthResult :=
  match signUpEmail name email password perfilInvestidor with
  | None => mkAuthResult true (VStr "Registro realizado com sucesso")
  | Some error => mkAuthResult false (getTranslatedAuthError error "Erro ao criar conta")
  end.

End Auth.

(** ** Helper lemmas *)

(** [getTranslatedAuthError] on an [Error] whose [message] is a string. *)
Lemma getTranslatedAuthError_error (props : list (string * JsVal)) (m d : string) :
  jsGet ErrorObject props "message" = VStr m ->
  getTranslatedAuthError (VObj ErrorObject props) d = translateAuthError m.
Proof.
  intros Hm. unfold getTranslatedAuthError, stringProp, jsIn. simpl. by rewrite Hm.
Qed.

Lemma jsGet_error_message (props : list (string * JsVal)) (m : string) :
  ownGet props "message" = Some (VStr m) \/ (ownGet props "message" = None /\ m = ""%string) ->
  jsGet ErrorObject props "message" = VStr m.
Proof. unfold jsGet. by intros [-> | [-> ->]]. Qed.

(** ** Properties *)

(** C28. [signIn] and [signUp] report success with their fixed message
    when the library call resolves; when it rejects with an [Error] whose [message] is a
    string (its own, or the inherited empty one), the answer is the
    translation of that message, never the default message the action
    passes. *)
Theorem authActions_outcome (props : list (string * JsVal)) (m n e p pf : string) :
  ownGet props "message" = Some (VStr m) \/ (ownGet props "message" = None /\ m = ""%string) ->
  signIn (fun _ _ => None) e p = mkAuthResult true (VStr "Login realizado com sucesso") /\
  signUp (fun _ _ _ _ => None) n e p pf = mkAuthResult true (VStr "Registro realizado com sucesso") /\
  signIn (fun _ _ => Some (VObj ErrorObject props)) e p = mkAuthResult false (translateAuthError m) /\
  signUp (fun _ _ _ _ => Some (VObj ErrorObject props)) n e p pf =
    mkAuthResult false (translateAuthError m).
Proof.
  intros Hm. apply jsGet_error_message in Hm.
  unfold signIn, signUp. by rewrite !(getTranslatedAuthError_error props m).
Qed.

(** ** Witnesses *)

(** An [Error] without a message: the answer is "Erro desconhecido",
    not "Erro ao criar conta". *)
Lemma authActions_outcome_witness :
  signUp (fun _ _ _ _ => Some (VObj ErrorObject [])) "Ana" "ana@exemplo.com" "segredo123" "Moderado" =
    mkAuthResult false (VStr "Erro desconhecido").
Proof.
  exact (proj2 (proj2 (proj2 (authActions_outcome [] "" "Ana" "ana@exemplo.com" "segredo123"
                                 "Moderado" (or_intror (conj eq_refl eq_refl)))))).
Defined.

End AuthActions.
