(* ===== verification/ClientForms.v ===== *)
(** * The client forms that call the server actions

    The submit handlers of the React components: the three profile
    editors (src/app/(private)/profile/_components/edit-*-form.tsx), the
    delete button of the asset list
    (src/app/(private)/_components/ativos-list.tsx), and the login and
    sign-up forms (src/app/(auth)/*/_components/*-form.tsx).  Each runs
    its form's zod schema first ([form.handleSubmit] with [zodResolver]:
    when the schema fails the handler is not called and the issues are
    shown under the fields), then the server action, and reports the
    outcome with a toast; the profile editors also close on success, and
    the authentication forms navigate to "/".

    The client's state is [Ui]: whether the editor is open, the toasts
    shown so far, and the location set through [window.location.href].
    The profile and asset handlers wrap the call in the [tryCatch] hook
    of "@/hooks/try-catch" (not in the sources: it turns a rejected call
    into [{ error }]); a redirect thrown by an action is, for the client,
    such a rejection (the framework's navigation is not modelled). *)

From S2P Require Import Prelude JsRuntime Effects Risk Validation Store AssetActions ProfileActions AuthTranslations AuthActions.
Import Effects Risk Validation Store AssetActions ProfileActions AuthTranslations AuthActions.

Module ClientForms.

(** [toast.success(m)] and [toast.error(m)]. *)
Inductive Toast := ToastSuccess (m : JsVal) | ToastError (m : JsVal).

Record Ui := mkUi { isEditing : bool; toasts : list Toast; location : option string }.

Definition toast (t : Toast) (ui : Ui) : Ui :=
  mkUi (isEditing ui) (toasts ui ++ [t]) (location ui).

Definition setIsEditing (b : bool) (ui : Ui) : Ui := mkUi b (toasts ui) (location ui).

Definition setLocation (url : string) (ui : Ui) : Ui := mkUi (isEditing ui) (toasts ui) (Some url).

(** The client-side schemas of the three editors. *)
Definition nameSchema (name : string) : list Issue :=
  field "name" [zMin 2 "O nome deve ter pelo menos 2 caracteres";
                zMax 100 "O nome deve ter no máximo 100 caracteres"] name.

Definition emailSchema (isEmail : string -> bool) (email : string) : list Issue :=
  field "email" [zEmail isEmail "E-mail inválido"] email.

Definition perfilSchema (perfil : string) : list Issue :=
  field "perfilInvestidor"
    [zEnum ["Conservador"; "Moderado"; "Arrojado"] "Selecione um perfil válido"] perfil.

Definition erroInesperado : string := "Ocorreu um erro inesperado. Tente novamente.".

(** The body of the editors' [onSubmit] after [tryCatch(action(data))]. *)
Definition handleEditResult (r : Exc + ApiResponse) (ui : Ui) : Ui :=
  match r with
  | inl _ => toast (ToastError (VStr erroInesperado)) ui
  | inr result =>
    match status result with
    | Success => setIsEditing false (toast (ToastSuccess (VStr (AssetActions.message result))) ui)
    | Error => toast (ToastError (VStr (AssetActions.message result))) ui
    end
  end.

(** [form.handleSubmit(onSubmit)] of an editor: the schema, then the
    action and its result. *)
Definition submitEdit (issues : list Issue) (action : Act ApiResponse) (s : World * Ui) : World * Ui :=
  if negb (success issues) then s
  else let (r, w') := action s.1 in (w', handleEditResult r s.2).

Definition editNameSubmit (name : string) : World * Ui -> World * Ui :=
  submitEdit (nameSchema name) (updateName name).

Definition editEmailSubmit (isEmail : string -> bool) (email : string) : World * Ui -> World * Ui :=
  submitEdit (emailSchema isEmail email) (updateEmail isEmail email).

Definition editPerfilSubmit (perfil : string) : World * Ui -> World * Ui :=
  submitEdit (perfilSchema perfil) (updatePerfilInvestidor perfil).

(** [handleCancel] and the edit button: the editor closes or opens (the
    reset of the form's fields is not modelled). *)
Definition handleCancel (ui : Ui) : Ui := setIsEditing false ui.

Definition startEditing (ui : Ui) : Ui := setIsEditing true ui.

(** [handleDelete] of the asset list. *)
Definition handleDelete (ativoId : string) (s : World * Ui) : World * Ui :=
  let (r, w') := deleteAtivo ativoId s.1 in
  (w', match r with
       | inl _ => toast (ToastError (VStr erroInesperado)) s.2
       | inr result =>
         match status result with
         | Success => toast (ToastSuccess (VStr (AssetActions.message result))) s.2
         | Error => toast (ToastError (VStr (AssetActions.message result))) s.2
         end
       end).

Section Auth.

Variable isEmail : string -> bool.
Variable signInEmail : string -> string -> option JsVal.
Variable signUpEmail : string -> string -> string -> string -> option JsVal.

(** The result of [signIn] or [signUp] on the login and sign-up forms. *)
Definition handleAuthResult (res : AuthResult) (ui : Ui) : Ui :=
  if ok res then setLocation "/" (toast (ToastSuccess (AuthActions.message res)) ui)
  else toast (ToastError (AuthActions.message res)) ui.

(** login-form.tsx, [onSubmit].  Its [catch] ("Erro ao fazer login")
    answers a failed call of the server action itself, which [signIn]
    never causes: [signIn] catches every rejection of the library. *)
Definition loginSubmit (email password : string) (ui : Ui) : Ui :=
  if negb (success (loginSchema isEmail email password)) then ui
  else handleAuthResult (signIn signInEmail email password) ui.

(** signup-form.tsx, [onSubmit]. *)
Definition signupSubmit (name email perfil password confirmPassword : string) (ui : Ui) : Ui :=
  if negb (success (signupSchema isEmail name email perfil password confirmPassword)) then ui
  else handleAuthResult (signUp signUpEmail name email password perfil) ui.

End Auth.

(** ** Helper lemmas *)

(** The editors validate with the same schemas as the server. *)
Lemma nameSchema_server (name : string) : nameSchema name = updateNameSchema name.
Proof. reflexivity. Qed.

Lemma perfilSchema_server (perfil : string) : perfilSchema perfil = updatePerfilSchema perfil.
Proof. reflexivity. Qed.

Lemma emailSchema_server (isEmail : string -> bool) (email : string) :
  emailSchema isEmail email = updateEmailSchema isEmail email.
Proof. reflexivity. Qed.

Lemma submitEdit_valid (issues : list Issue) (action : Act ApiResponse) (w : World) (ui : Ui) :
  issues = [] -> submitEdit issues action (w, ui) = ((action w).2, handleEditResult (action w).1 ui).
Proof. intros ->. unfold submitEdit. simpl. by destruct (action w). Qed.

Lemma submitEdit_invalid (i : Issue) (l : list Issue) (action : Act ApiResponse) (s : World * Ui) :
  submitEdit (i :: l) action s = s.
Proof. unfold submitEdit. by rewrite success_cons. Qed.

(** ** Properties of the client flows *)

(** C32. Through the form, a signed-in user's name and profile editors
    either do nothing (the client-side schema rejects the input) or
    succeed: the server's validation error is unreachable, since the
    client checks the same schema first.  On success the editor closes
    and the success toast is shown. *)
Theorem profileEditors_through_form (w : World) (ui : Ui) (id : string) (u : User) (n p : string) :
  session w = Some id -> users w !! id = Some u ->
  (editNameSubmit n (w, ui) = (w, ui) \/
   editNameSubmit n (w, ui) =
     (final (updateName n) w,
      mkUi false (toasts ui ++ [ToastSuccess (VStr "Nome atualizado com sucesso!")]) (location ui))) /\
  (editPerfilSubmit p (w, ui) = (w, ui) \/
   editPerfilSubmit p (w, ui) =
     (final (updatePerfilInvestidor p) w,
      mkUi false (toasts ui ++ [ToastSuccess (VStr "Perfil de investidor atualizado com sucesso!")])
        (location ui))).
Proof.
  intros Hs Hu. unfold editNameSubmit, editPerfilSubmit, final.
  rewrite nameSchema_server, perfilSchema_server. split.
  - destruct (updateNameSchema n) as [|i l] eqn:Hv; [right | left; apply submitEdit_invalid].
    rewrite submitEdit_valid by done. by rewrite (updateName_run w id u n Hs Hu), Hv.
  - destruct (updatePerfilSchema p) as [|i l] eqn:Hv; [right | left; apply submitEdit_invalid].
    rewrite submitEdit_valid by done. by rewrite (updatePerfil_run w id u p Hs Hu), Hv.
Qed.

(** C33. What a signed-out user sees: a valid name submitted through the
    editor produces the generic error toast of [updateName] (the caught
    redirect), the editor stays open and nothing is stored. *)
Theorem editName_signed_out (w : World) (ui : Ui) (n : string) :
  (forall id, session w = Some id -> users w !! id = None) -> nameSchema n = [] ->
  editNameSubmit n (w, ui) =
    (w, toast (ToastError (VStr "Erro ao atualizar nome. Tente novamente.")) ui).
Proof.
  intros H Hv. unfold editNameSubmit. rewrite submitEdit_valid by done.
  unfold updateName. rewrite tryCatch_no_user by exact (assetActions_no_user w H). reflexivity.
Qed.

(** C34. The delete button of the asset list, for a signed-in user: on
    the user's own asset it shows "Ativo deletado com sucesso" and the
    asset is gone; on another user's asset it shows the permission
    error and the asset stays. *)
Theorem handleDelete_outcome (w : World) (ui : Ui) (id : string) (u : User) (ativoId : string)
    (a : AtivoRow) :
  session w = Some id -> users w !! id = Some u -> ativos w !! ativoId = Some a ->
  (userId a = id ->
   (handleDelete ativoId (w, ui)).2 = toast (ToastSuccess (VStr "Ativo deletado com sucesso")) ui /\
   ativos (handleDelete ativoId (w, ui)).1 !! ativoId = None) /\
  (userId a <> id ->
   handleDelete ativoId (w, ui) =
     (w, toast (ToastError (VStr "Você não tem permissão para deletar este ativo")) ui)).
Proof.
  intros Hs Hu Ha. unfold handleDelete. simpl.
  rewrite (deleteAtivo_run ativoId w id u Hs Hu), Ha.
  split; intros Ho; case_decide; try done. simpl. split; [done|]. apply lookup_delete_eq.
Qed.

(** C35. The login form navigates to "/" exactly when the form passes
    [loginSchema] and the library accepts the credentials; a rejection
    with an [Error] shows its translated message and stays on the page. *)
Theorem loginSubmit_outcome (isEmail : string -> bool) (e pw : string) (ui : Ui)
    (props : list (string * JsVal)) (m : string) :
  success (loginSchema isEmail e pw) = true ->
  ownGet props "message" = Some (VStr m) ->
  loginSubmit isEmail (fun _ _ => None) e pw ui =
    setLocation "/" (toast (ToastSuccess (VStr "Login realizado com sucesso")) ui) /\
  loginSubmit isEmail (fun _ _ => Some (VObj ErrorObject props)) e pw ui =
    toast (ToastError (translateAuthError m)) ui /\
  location (loginSubmit isEmail (fun _ _ => Some (VObj ErrorObject props)) e pw ui) = location ui.
Proof.
  intros Hv Hm. unfold loginSubmit. rewrite Hv. simpl.
  unfold handleAuthResult, signIn. simpl.
  rewrite (getTranslatedAuthError_error props m) by (unfold jsGet; by rewrite Hm).
  done.
Qed.

(** ** Witnesses *)

Definition openEditor : Ui := mkUi true [] None.

Lemma profileEditors_through_form_witness :
  editNameSubmit "Ana Maria" (demoWorld, openEditor) =
    (final (updateName "Ana Maria") demoWorld,
     mkUi false [ToastSuccess (VStr "Nome atualizado com sucesso!")] None) \/
  editNameSubmit "Ana Maria" (demoWorld, openEditor) = (demoWorld, openEditor).
Proof.
  destruct (proj1 (profileEditors_through_form demoWorld openEditor "u1" demoUser "Ana Maria"
                     "Moderado" eq_refl eq_refl)) as [H | H]; [right | left]; exact H.
Defined.

Lemma editName_signed_out_witness :
  editNameSubmit "Ana Maria" (mkWorld ∅ ∅ None [], openEditor) =
    (mkWorld ∅ ∅ None [], toast (ToastError (VStr "Erro ao atualizar nome. Tente novamente.")) openEditor).
Proof.
  apply editName_signed_out; [intros id H; discriminate H | vm_compute; reflexivity].
Defined.

Lemma handleDelete_outcome_witness :
  handleDelete "a1" (demoWorld, openEditor) =
    (demoWorld, toast (ToastError (VStr "Você não tem permissão para deletar este ativo")) openEditor).
Proof.
  refine (proj2 (handleDelete_outcome demoWorld openEditor "u1" demoUser "a1" demoRow _ _ _) _);
    [vm_compute; reflexivity .. | intros H; discriminate H].
Defined.

Lemma loginSubmit_outcome_witness :
  loginSubmit (fun _ => true) (fun _ _ => Some (VObj ErrorObject [("message", VStr "Invalid email or password")]))
    "ana@exemplo.com" "segredo123" openEditor =
  toast (ToastError (translateAuthError "Invalid email or password")) openEditor.
Proof.
  refine (proj1 (proj2 (loginSubmit_outcome (fun _ => true) "ana@exemplo.com" "segredo123" openEditor
                          [("message", VStr "Invalid email or password")] "Invalid email or password"
                          _ _))); vm_compute; reflexivity.
Defined.

End ClientForms.
