(* ===== verification/System.v ===== *)
(** * The application as a transition system

    Every way the database and the session change, as one step relation
    on [World]: the five server actions that write ([createAtivo],
    [deleteAtivo], [updateName], [updateEmail], [updatePerfilInvestidor],
    with any arguments and whatever they answer), and the two events the
    better-auth library produces outside the sources: a sign-up, which
    adds a user under a new id and, as the library refuses an address
    already registered ("User already exists"), with an e-mail no user
    holds; and any change of the session cookie (sign-in, sign-out,
    expiry).  A world is reachable when a sequence of steps leads to it
    from the empty database, as a trace of a chain is in ConCert.

    The theorem: in every reachable world every e-mail is held by at most
    one user and every stored asset passes [ativoSchema] and belongs to a
    registered user, by induction on the steps. *)

From S2P Require Import Prelude Effects Validation Store AssetActions ProfileActions.
Import Effects Validation Store AssetActions ProfileActions.

Module System.

Definition emptyWorld : World := mkWorld ∅ ∅ None [].

(** The library's sign-up: a new id, an address nobody holds. *)
Definition signUpWorld (id : string) (u : User) (w : World) : World := setUsers (insert id u) w.

Definition setSession (s : option string) (w : World) : World :=
  mkWorld (users w) (ativos w) s (revalidated w).

Inductive step : World -> World -> Prop :=
| StepCreateAtivo (db : AtivoRow -> bool) (v : AtivoInput) (w : World) :
    step w (final (createAtivo db v) w)
| StepDeleteAtivo (ativoId : string) (w : World) :
    step w (final (deleteAtivo ativoId) w)
| StepUpdateName (n : string) (w : World) :
    step w (final (updateName n) w)
| StepUpdateEmail (isEmail : string -> bool) (e : string) (w : World) :
    step w (final (updateEmail isEmail e) w)
| StepUpdatePerfil (p : string) (w : World) :
    step w (final (updatePerfilInvestidor p) w)
| StepSignUp (id : string) (u : User) (w : World) :
    users w !! id = None ->
    (forall j uj, users w !! j = Some uj -> userEmail uj <> userEmail u) ->
    step w (signUpWorld id u w)
| StepSession (s : option string) (w : World) :
    step w (setSession s w).

Inductive reachable : World -> Prop :=
| ReachEmpty : reachable emptyWorld
| ReachStep (w w' : World) : reachable w -> step w w' -> reachable w'.

Definition invariant (w : World) : Prop := emailsUnique w /\ storeValid w.

(** ** Helper lemmas *)

Lemma invariant_empty : invariant emptyWorld.
Proof.
  split; [intros i j ui uj Hi | intros i a Hi]; simpl in Hi; by rewrite lookup_empty in Hi.
Qed.

(** Changing the session or the revalidated paths keeps the invariant. *)
Lemma invariant_same_tables (w w' : World) :
  users w' = users w -> ativos w' = ativos w -> invariant w -> invariant w'.
Proof.
  intros Hu Ha [Hun Hsv]. split.
  - intros i j ui uj. rewrite Hu. apply Hun.
  - intros i a. rewrite Ha, Hu. apply Hsv.
Qed.

Lemma invariant_signUp (w : World) (id : string) (u : User) :
  invariant w -> users w !! id = None ->
  (forall j uj, users w !! j = Some uj -> userEmail uj <> userEmail u) ->
  invariant (signUpWorld id u w).
Proof.
  intros [Hun Hsv] Hfresh Hmail. split.
  - eapply emailsUnique_insert; [exact Hun | reflexivity |].
    intros j uj Hj He. exfalso. exact (Hmail j uj Hj He).
  - intros i a Ha. destruct (Hsv i a Ha) as [Hs Ho]. split; [exact Hs|].
    simpl. rewrite lookup_insert. case_decide; [done | exact Ho].
Qed.

Lemma invariant_step (w w' : World) : step w w' -> invariant w -> invariant w'.
Proof.
  intros Hstep Hw. destruct Hstep as [db v w|ativoId w|n w|isEmail e w|p w|id u w Hf Hm|s w].
  - destruct Hw as [Hun Hsv]. split; [|by apply createAtivo_storeValid].
    intros i j ui uj. rewrite (proj1 (assetActions_users db v "" w)). apply Hun.
  - destruct Hw as [Hun Hsv]. split; [|by apply deleteAtivo_storeValid].
    intros i j ui uj. rewrite (proj2 (assetActions_users (fun _ => true) (mkAtivoInput "" "" "")
                                        ativoId w)). apply Hun.
  - by apply updateName_inv.
  - by apply updateEmail_inv.
  - by apply updatePerfil_inv.
  - by apply invariant_signUp.
  - by apply (invariant_same_tables w).
Qed.

(** ** Properties *)

(** C3. Invariant of the whole system: in every world reachable from the
    empty database by the server actions and the library's sign-ups and
    session changes, every e-mail is held by at most one user, and every
    stored asset passes [ativoSchema] and is owned by a registered user. *)
Theorem reachable_invariant (w : World) : reachable w -> emailsUnique w /\ storeValid w.
Proof.
  induction 1 as [|w w' _ IH Hstep]; [exact invariant_empty|].
  exact (invariant_step w w' Hstep IH).
Qed.

(** ** Witnesses *)

(** Ana signs up and signs in, then registers an asset. *)
Definition demoTrace : World :=
  final (createAtivo (fun _ => true) (mkAtivoInput "VALE3" "Alto" "1500"))
    (setSession (Some "u1") (signUpWorld "u1" demoUser emptyWorld)).

Lemma reachable_invariant_witness : emailsUnique demoTrace /\ storeValid demoTrace.
Proof.
  apply reachable_invariant. unfold demoTrace.
  eapply ReachStep; [|apply StepCreateAtivo].
  eapply ReachStep; [|apply StepSession].
  eapply ReachStep; [apply ReachEmpty | apply StepSignUp].
  - reflexivity.
  - intros j uj Hj. simpl in Hj. by rewrite lookup_empty in Hj.
Defined.

End System.
